(** * Profile API with cat facts: a shallow embedding of the service

    The development follows the four source files of the repository:
    [config.py] (process settings), [models.py] (response schemas),
    [services.py] (timestamp, user info, upstream fact client, response
    assembler) and [main.py] (the three routes).

    Python's exceptions are modelled by an error monad with a class
    hierarchy, so that a [try]/[except] chain is a list of handlers tried in
    order.  What the program reads from the outside world (the process
    environment, the clock, the outcome of the one outbound HTTP call) is
    passed to the functions explicitly. *)

From Stdlib Require Import ZArith NArith String Ascii List Lia SpecFloat.
From stdpp Require Import base gmap strings.

Set Warnings "-register-all".

Local Open Scope Z_scope.
Local Open Scope string_scope.

(** ** Python values *)

Module Py.

(** The values that [json.loads] produces and [json.dumps] consumes.  A
    [dict] keeps its insertion order, hence the association list; a [float]
    is an IEEE-754 double, of which only finiteness matters here.

    A [str] is held as the bytes of its UTF-8 encoding.  A [str] may also
    hold surrogate code points (U+D800 to U+DFFF), which UTF-8 does not
    encode: [json.loads] makes one of the escape [\ud800], and [os.getenv]
    makes one of each byte of a variable that is not UTF-8.  Such a code
    point is held as the three bytes that the [surrogatepass] handler
    writes for it, [0xED], then [0xA0] to [0xBF], then [0x80] to [0xBF]. *)
Inductive pyval : Type :=
  | PyNone
  | PyBool (b : bool)
  | PyInt (z : Z)
  | PyFloat (f : spec_float)
  | PyStr (s : string)
  | PyList (l : list pyval)
  | PyDict (d : list (string * pyval)).

(** [d.get(key)] on the items of a dict. *)
Fixpoint lookup_item (d : list (string * pyval)) (key : string) : option pyval :=
  match d with
  | [] => None
  | (k, v) :: d' => if String.eqb k key then Some v else lookup_item d' key
  end.

(** [d.get(key, dflt)]. *)
Definition dict_get (d : list (string * pyval)) (key : string) (dflt : pyval) : pyval :=
  match lookup_item d key with
  | Some v => v
  | None => dflt
  end.

Definition is_str (v : pyval) : bool :=
  match v with PyStr _ => true | _ => false end.

(** [type(v).__name__]. *)
Definition type_name (v : pyval) : string :=
  match v with
  | PyNone => "NoneType"
  | PyBool _ => "bool"
  | PyInt _ => "int"
  | PyFloat _ => "float"
  | PyStr _ => "str"
  | PyList _ => "list"
  | PyDict _ => "dict"
  end.

(** The bytes [c], [d] start a surrogate code point.  (In the bytes of a
    [str] the byte [0xED] only ever starts a code point.) *)
Definition surrogate_start (c d : ascii) : bool :=
  ((N_of_ascii c =? 237) && (160 <=? N_of_ascii d) && (N_of_ascii d <=? 191))%N.

Fixpoint has_surrogate (s : string) : bool :=
  match s with
  | EmptyString => false
  | String c s' =>
      match s' with
      | String d _ => surrogate_start c d
      | EmptyString => false
      end || has_surrogate s'
  end.

(** [s.encode("utf-8")] succeeds: it raises [UnicodeEncodeError] exactly
    on a surrogate. *)
Definition encodable (s : string) : bool := negb (has_surrogate s).

(** [s.isascii()]. *)
Fixpoint isascii (s : string) : bool :=
  match s with
  | EmptyString => true
  | String c s' => (N_of_ascii c <? 128)%N && isascii s'
  end.

Definition is_finite (f : spec_float) : bool :=
  match f with
  | S754_zero _ | S754_finite _ _ _ => true
  | S754_infinity _ | S754_nan => false
  end.

(** ** Exceptions *)

(** The exception classes that can reach the handlers of the program:
    Python's own, httpx's hierarchy and FastAPI's [HTTPException]. *)
Inductive exc_class : Set :=
  | Exception
  | ValueError | UnicodeError | UnicodeDecodeError | UnicodeEncodeError
  | JSONDecodeError
  | AttributeError | TypeError | RuntimeError
  | HTTPError
  | RequestError | TransportError
  | TimeoutException | ConnectTimeout | ReadTimeout | WriteTimeout | PoolTimeout
  | NetworkError | ConnectError | ReadError | WriteError | CloseError
  | ProtocolError | LocalProtocolError | RemoteProtocolError
  | ProxyError | UnsupportedProtocol
  | DecodingError | TooManyRedirects
  | HTTPStatusError
  | StarletteHTTPException | HTTPException
  | ResponseValidationError.

#[global] Instance exc_class_eq_dec : EqDecision exc_class.
Proof. solve_decision. Defined.

(** The direct base class; [Exception] is the root of what is modelled. *)
Definition base (c : exc_class) : option exc_class :=
  match c with
  | Exception => None
  | ValueError | AttributeError | TypeError | RuntimeError
  | ResponseValidationError => Some Exception
  | UnicodeError | JSONDecodeError => Some ValueError
  | UnicodeDecodeError | UnicodeEncodeError => Some UnicodeError
  | HTTPError => Some Exception
  | RequestError | HTTPStatusError => Some HTTPError
  | TransportError | DecodingError | TooManyRedirects => Some RequestError
  | TimeoutException | NetworkError | ProtocolError
  | ProxyError | UnsupportedProtocol => Some TransportError
  | ConnectTimeout | ReadTimeout | WriteTimeout | PoolTimeout => Some TimeoutException
  | ConnectError | ReadError | WriteError | CloseError => Some NetworkError
  | LocalProtocolError | RemoteProtocolError => Some ProtocolError
  | StarletteHTTPException => Some Exception
  | HTTPException => Some StarletteHTTPException
  end.

Fixpoint issubclass_fuel (fuel : nat) (c d : exc_class) : bool :=
  bool_decide (c = d) ||
  match fuel with
  | O => false
  | S fuel' =>
      match base c with
      | Some b => issubclass_fuel fuel' b d
      | None => false
      end
  end.

(** No class is deeper than five steps below [Exception]. *)
Definition issubclass (c d : exc_class) : bool := issubclass_fuel 5 c d.

(** A raised exception: its class, [str(e)], and the integer it carries
    when it has one ([e.response.status_code] of an [HTTPStatusError],
    [status_code] of an [HTTPException]; [exc_str] of the latter is its
    [detail]). *)
Record exn : Type := mkExn {
  exc_type : exc_class;
  exc_str : string;
  exc_code : Z
}.

Definition isinstance (e : exn) (c : exc_class) : bool := issubclass (exc_type e) c.

Definition new_exn (c : exc_class) (msg : string) : exn := mkExn c msg 0.

(** ** Computations that return or raise *)

Inductive result (A : Type) : Type :=
  | Return (a : A)
  | Raise (e : exn).

Arguments Return {A} a.
Arguments Raise {A} e.

Definition bind {A B : Type} (c : result A) (k : A -> result B) : result B :=
  match c with
  | Return a => k a
  | Raise e => Raise e
  end.

(** [try: body  except C1: h1  except C2: h2 ...]: the first clause whose
    class the exception is an instance of handles it; with none, the
    exception propagates. *)
Definition try_except {A : Type} (body : result A)
    (clauses : list (exc_class * (exn -> result A))) : result A :=
  match body with
  | Return a => Return a
  | Raise e =>
      match find (fun cl => isinstance e (fst cl)) clauses with
      | Some cl => snd cl e
      | None => Raise e
      end
  end.

End Py.

Import Py.

Declare Scope py_scope.
Delimit Scope py_scope with py.
Notation "'do' x <- c ; k" := (bind c (fun x => k))
  (at level 10, x name, c at level 100, k at level 200) : py_scope.
Local Open Scope py_scope.

(** ** Decimal text of integers *)

Module Format.

Definition digit_char (d : N) : ascii := ascii_of_N (48 + d).

(** The [w] lowest decimal digits of [n], most significant first. *)
Fixpoint fixed (w : nat) (n : N) : string :=
  match w with
  | O => EmptyString
  | S w' => String (digit_char ((n / 10 ^ N.of_nat w') mod 10)) (fixed w' n)
  end.

Fixpoint ndigits_fuel (fuel : nat) (n : N) : nat :=
  match fuel with
  | O => 1
  | S fuel' => if (n <? 10)%N then 1%nat else S (ndigits_fuel fuel' (n / 10))
  end.

(** The number of decimal digits of [n] (one for zero); a number has no
    more decimal digits than bits. *)
Definition ndigits (n : N) : nat := ndigits_fuel (N.to_nat (N.size n)) n.

(** ["%0wd" % n] for a natural [n]: at least [w] digits, zero-padded. *)
Definition format_d (w : nat) (n : N) : string := fixed (Nat.max w (ndigits n)) n.

(** [str(z)] for an [int]. *)
Definition str_int (z : Z) : string :=
  if (z <? 0)%Z then "-" ++ format_d 0 (Z.abs_N z) else format_d 0 (Z.to_N z).

End Format.

(** ** [datetime]: the clock reading and its ISO 8601 text *)

Module Datetime.

Import Format.

(** An aware [datetime] whose [tzinfo] is [timezone.utc], as
    [datetime.now(timezone.utc)] returns it. *)
Record datetime : Set := mkDatetime {
  year : N;
  month : N;
  day : N;
  hour : N;
  minute : N;
  second : N;
  microsecond : N
}.

Definition is_leap (y : N) : bool :=
  ((y mod 4 =? 0) && (negb (y mod 100 =? 0) || (y mod 400 =? 0)))%N.

Definition days_in_month (y m : N) : N :=
  (if m =? 2 then (if is_leap y then 29 else 28)
   else if (m =? 4) || (m =? 6) || (m =? 9) || (m =? 11) then 30
   else 31)%N.

(** The field ranges that the constructor of [datetime] enforces
    ([MINYEAR = 1], [MAXYEAR = 9999]). *)
Definition valid (dt : datetime) : bool :=
  ((1 <=? year dt) && (year dt <=? 9999) &&
   (1 <=? month dt) && (month dt <=? 12) &&
   (1 <=? day dt) && (day dt <=? days_in_month (year dt) (month dt)) &&
   (hour dt <=? 23) && (minute dt <=? 59) && (second dt <=? 59) &&
   (microsecond dt <=? 999999))%N.

(** Comparison of two aware datetimes of the same zone: the tuples of
    fields, lexicographically. *)
Definition lex (c : comparison) (k : comparison) : comparison :=
  match c with Eq => k | _ => c end.

Definition cmp (a b : datetime) : comparison :=
  lex (year a ?= year b)%N
 (lex (month a ?= month b)%N
 (lex (day a ?= day b)%N
 (lex (hour a ?= hour b)%N
 (lex (minute a ?= minute b)%N
 (lex (second a ?= second b)%N
      (microsecond a ?= microsecond b)%N))))).

Definition le (a b : datetime) : Prop := cmp a b <> Gt.

(** *** [isoformat] *)

(** [_format_time] with [timespec='auto']: the fraction is printed only
    when the microseconds are not zero. *)
Definition format_time (hh mm ss us : N) : string :=
  format_d 2 hh ++ ":" ++ format_d 2 mm ++ ":" ++ format_d 2 ss ++
  (if (us =? 0)%N then "" else "." ++ format_d 6 us).

(** [_format_offset(timedelta(0))]. *)
Definition utc_offset : string := "+00:00".

Definition isoformat (dt : datetime) : string :=
  format_d 4 (year dt) ++ "-" ++ format_d 2 (month dt) ++ "-" ++
  format_d 2 (day dt) ++ "T" ++
  format_time (hour dt) (minute dt) (second dt) (microsecond dt) ++
  utc_offset.

End Datetime.

(** ** The libraries the program calls *)

(** *** httpx *)

Module Httpx.

(** The body of a response, as [json.loads] sees it: the decoded value, or
    a text that the decoder rejects with [JSONDecodeError] (or with
    [UnicodeDecodeError] when the bytes are not text). *)
Inductive body_text : Type :=
  | Decoded (v : pyval)
  | Malformed (unicode : bool) (msg : string).

Record Response : Type := mkResponse {
  status_code : Z;
  body : body_text
}.

(** [response.json()]. *)
Definition json (r : Response) : result pyval :=
  match body r with
  | Decoded v => Return v
  | Malformed u msg =>
      Raise (new_exn (if u then UnicodeDecodeError else JSONDecodeError) msg)
  end.

Definition is_success (r : Response) : bool :=
  ((200 <=? status_code r) && (status_code r <=? 299))%Z.

(** [response.raise_for_status()]: returns on a 2xx status and raises
    [HTTPStatusError], which keeps the response, otherwise. *)
Definition raise_for_status (r : Response) : result Response :=
  if is_success r then Return r
  else Raise (mkExn HTTPStatusError
                ("HTTP status " ++ Format.str_int (status_code r))
                (status_code r)).

(** What [await client.get(url)] does for each URL: a response, or one of
    the transport exceptions (a request that outlives the client's timeout
    raises a subclass of [TimeoutException]). *)
Definition transport : Type := string -> result Response.

End Httpx.

(** *** Starlette and FastAPI *)

Module Fastapi.

(** Starlette's [JSONResponse.render] is
    [json.dumps(content, ensure_ascii=False, allow_nan=False, ...)
     .encode("utf-8")].

    [json.dumps] with [allow_nan=False] raises [ValueError] on a float that
    is infinite or not a number, wherever it sits in the value.
    ([json.loads] produces such floats: it reads [1e999] as infinity and
    accepts [NaN] and [Infinity].) *)
Fixpoint json_compliant (v : pyval) : bool :=
  match v with
  | PyFloat f => is_finite f
  | PyList l => forallb json_compliant l
  | PyDict d => forallb (fun kv => json_compliant (snd kv)) d
  | _ => true
  end.

(** With [ensure_ascii=False] the strings of the value, keys included, go
    into the text as they are, and [.encode("utf-8")] raises
    [UnicodeEncodeError] when one of them holds a surrogate. *)
Fixpoint utf8_encodable (v : pyval) : bool :=
  match v with
  | PyStr s => encodable s
  | PyList l => forallb utf8_encodable l
  | PyDict d => forallb (fun kv => encodable (fst kv) && utf8_encodable (snd kv)) d
  | _ => true
  end.

(** [render] returns the body. *)
Definition renderable (v : pyval) : bool := json_compliant v && utf8_encodable v.

Record JSONResponse : Type := mkJSONResponse {
  content : pyval;
  status_code : Z;
  headers : list (string * string)
}.

(** The constructor [JSONResponse(content=..., status_code=..., headers=...)]
    renders the body at once, so a value that cannot be rendered raises
    there: [json.dumps] first, the encoding after it.  The text of the two
    exceptions is the interpreter's (it names the float, or the character
    and its position, and varies with the version); the texts written here
    stand for it. *)
Definition new_JSONResponse (c : pyval) (code : Z)
    (hs : list (string * string)) : result JSONResponse :=
  if json_compliant c then
    if utf8_encodable c then Return (mkJSONResponse c code hs)
    else Raise (new_exn UnicodeEncodeError
                  "'utf-8' codec can't encode character: surrogates not allowed")
  else Raise (new_exn ValueError "Out of range float values are not JSON compliant").

(** [HTTPException(status_code=..., detail=...)]. *)
Definition new_HTTPException (code : Z) (detail : string) : exn :=
  mkExn HTTPException detail code.

(** What leaves the server for a route that returned [r] or raised: the
    default handler turns an [HTTPException] into its status code with the
    body [{"detail": ...}], and the server answers any other exception
    with a plain 500.  (A detail is text written by the program followed
    by [str(e)] of an exception of httpx, of the JSON decoder or of the
    interpreter, which is printable text; the handler's own rendering of
    it is taken to succeed.) *)
Definition respond (r : result JSONResponse) : JSONResponse :=
  match r with
  | Return resp => resp
  | Raise e =>
      if isinstance e StarletteHTTPException
      then mkJSONResponse (PyDict [("detail", PyStr (exc_str e))]) (exc_code e) []
      else mkJSONResponse (PyStr "Internal Server Error") 500 []
  end.

End Fastapi.

(** ** config.py *)

Module Config.

(** [os.getenv(key, default)]. *)
Definition getenv (environ : gmap string string) (key dflt : string) : string :=
  default dflt (environ !! key).

(** [load_dotenv()]: the assignments of the [.env] file enter the
    environment, a variable that is already set keeps its value. *)
Definition load_dotenv (dotenv environ : gmap string string) : gmap string string :=
  environ ∪ dotenv.

(** The attributes of [Settings] that are literals in the class body. *)
Definition APP_NAME : string := "PROFILE API WITH CAT FACTS".
Definition APP_VERSION : string := "1.0.0".
Definition APP_DESCRIPTION : string := "Profile endpoint with dynamic cat facts".
Definition CAT_FACT_API_URL : string := "https://catfact.ninja/fact".

(** The attributes of [Settings] that the class body reads from the
    environment and that the routes and the start-up check use (server,
    CORS and logging settings go to the framework only). *)
Record Settings : Type := mkSettings {
  USER_EMAIL : string;
  USER_NAME : string;
  USER_STACK : string
}.

(** The class body of [Settings], evaluated once when the module is
    imported. *)
Definition load_settings (environ : gmap string string) : Settings :=
  {| USER_EMAIL := getenv environ "USER_EMAIL" "your.email@example.com";
     USER_NAME := getenv environ "USER_NAME" "Your Full Name";
     USER_STACK := getenv environ "USER_STACK" "JavaScript/Nodejs" |}.

End Config.

(** ** services.py *)

Module Services.

Import Httpx.

Definition CAT_FACT_API : string := "https://catfact.ninja/fact".

(** [data.get("fact", dflt)]: only a dict has the method. *)
Definition get_method (data : pyval) (key : string) (dflt : pyval) : result pyval :=
  match data with
  | PyDict d => Return (dict_get d key dflt)
  | _ => Raise (new_exn AttributeError
                  ("'" ++ type_name data ++ "' object has no attribute 'get'"))
  end.

Definition fetch_cat_fact (client_get : transport) : result pyval :=
  try_except
    (do response <- client_get CAT_FACT_API;
     do _ <- raise_for_status response;
     do data <- json response;
     do fact <- get_method data "fact" (PyStr "Cats are amazing creatures!");
     Return fact)
    [ (TimeoutException, fun _ =>
         Raise (Fastapi.new_HTTPException 503
                  "Cat Facts API is taking too long to respond. Please try again."));
      (HTTPStatusError, fun e =>
         Raise (Fastapi.new_HTTPException 503
                  ("Cat Facts API returned an error: " ++ Format.str_int (exc_code e))));
      (RequestError, fun e =>
         Raise (Fastapi.new_HTTPException 503
                  ("Failed to connect to Cat Facts API: " ++ exc_str e)));
      (Exception, fun e =>
         Raise (Fastapi.new_HTTPException 500
                  ("Unexpected error while fetching cat fact: " ++ exc_str e))) ].

Definition get_current_timestamp (now : Datetime.datetime) : string :=
  Datetime.isoformat now.

Definition get_user_info (environ : gmap string string) : pyval :=
  PyDict
    [ ("email", PyStr (Config.getenv environ "USER_EMAIL" "your.email@example.com"));
      ("name", PyStr (Config.getenv environ "USER_NAME" "Your Full Name"));
      ("stack", PyStr (Config.getenv environ "USER_STACK" "Python/FastAPI")) ].

Definition build_profile_response (environ : gmap string string)
    (now : Datetime.datetime) (client_get : transport) : result pyval :=
  do cat_fact <- fetch_cat_fact client_get;
  let timestamp := get_current_timestamp now in
  let user_info := get_user_info environ in
  Return (PyDict
    [ ("status", PyStr "success");
      ("user", user_info);
      ("timestamp", PyStr timestamp);
      ("fact", cat_fact) ]).

End Services.

(** ** models.py *)

Module Models.

(** [HealthResponse], applied by the framework to what [/health] returns
    ([response_model=HealthResponse]): [status] must be the literal
    ["healthy"] and [timestamp] a string; the validated fields are what is
    sent. *)
Definition HealthResponse (v : pyval) : result pyval :=
  match v with
  | PyDict d =>
      match lookup_item d "status", lookup_item d "timestamp" with
      | Some (PyStr st), Some (PyStr ts) =>
          if String.eqb st "healthy"
          then Return (PyDict [("status", PyStr st); ("timestamp", PyStr ts)])
          else Raise (new_exn ResponseValidationError "status")
      | _, _ => Raise (new_exn ResponseValidationError "field")
      end
  | _ => Raise (new_exn ResponseValidationError "model")
  end.

End Models.

(** ** main.py *)

Module Main.

Import Fastapi Config Services.

Definition root : pyval :=
  PyDict
    [ ("message", PyStr ("Welcome to " ++ APP_NAME));
      ("version", PyStr APP_VERSION);
      ("endpoints", PyDict
         [ ("/me", PyStr "Get profile information with a random cat fact");
           ("/health", PyStr "Health check endpoint");
           ("/docs", PyStr "Interactive API documentation (Swagger UI)");
           ("/redoc", PyStr "Alternative API documentation (ReDoc)") ]);
      ("repository", PyStr "Add your GitHub repo URL here") ].

Definition health_check (now : Datetime.datetime) : pyval :=
  PyDict
    [ ("status", PyStr "healthy");
      ("timestamp", PyStr (get_current_timestamp now)) ].

Definition get_profile (environ : gmap string string)
    (now : Datetime.datetime) (client_get : Httpx.transport) : result JSONResponse :=
  try_except
    (do response_data <- build_profile_response environ now client_get;
     new_JSONResponse response_data 200 [("Content-Type", "application/json")])
    [ (HTTPException, fun e => Raise e);
      (Exception, fun e =>
         Raise (new_HTTPException 500 ("Internal server error: " ++ exc_str e))) ].

(** *** The running application *)

(** The process after start-up: its environment, with the [.env] file
    loaded, and the [settings] object built from it. *)
Record process : Type := mkProcess {
  environ : gmap string string;
  settings : Settings
}.

Definition startup (os_environ dotenv : gmap string string) : process :=
  let env := load_dotenv dotenv os_environ in
  {| environ := env; settings := load_settings env |}.

(** What the outside world holds for one request: the clock reading that
    the handler obtains and the behaviour of the network. *)
Record world : Type := mkWorld {
  now : Datetime.datetime;
  client_get : Httpx.transport
}.

Inductive request : Set := GET_root | GET_health | GET_me.

(** The response to a request.  The environment read by a handler is the
    one of the moment of the request, [env]. *)
Definition handle (p : process) (env : gmap string string) (w : world)
    (rq : request) : JSONResponse :=
  match rq with
  | GET_root => respond (new_JSONResponse root 200 [])
  | GET_health =>
      respond (do v <- Models.HealthResponse (health_check (now w));
               new_JSONResponse v 200 [])
  | GET_me => respond (get_profile env (now w) (client_get w))
  end.

(** Nothing in the program assigns to the environment after start-up. *)
Definition app (p : process) (w : world) (rq : request) : JSONResponse :=
  handle p (environ p) w rq.

(** A field of a JSON object response. *)
Definition field (r : JSONResponse) (key : string) : option pyval :=
  match content r with
  | PyDict d => lookup_item d key
  | _ => None
  end.

End Main.

(** ** Vocabulary of the specification *)

Module Spec.

Import Datetime.

(** The reading of "a parseable ISO-8601 timestamp with UTC offset", after
    the glossary's [2025-10-17T14:30:45.123456+00:00]: a parser for
    [YYYY-MM-DDTHH:MM:SS[.ffffff]+00:00] that accepts a text only when its
    fields are those of a valid date and time. *)
Definition digit_of (c : ascii) : option N :=
  let n := N_of_ascii c in
  if ((48 <=? n) && (n <=? 57))%N then Some (n - 48)%N else None.

Fixpoint take_digits (w : nat) (acc : N) (s : string) : option (N * string) :=
  match w with
  | O => Some (acc, s)
  | S w' =>
      match s with
      | String c s' =>
          match digit_of c with
          | Some d => take_digits w' (acc * 10 + d) s'
          | None => None
          end
      | EmptyString => None
      end
  end.

Definition expect (c : ascii) (s : string) : option string :=
  match s with
  | String c' s' => if Ascii.eqb c c' then Some s' else None
  | EmptyString => None
  end.

Definition take_fraction (s : string) : option (N * string) :=
  match s with
  | String "." s' => take_digits 6 0 s'
  | _ => Some (0%N, s)
  end.

Definition parse_iso8601_utc (s : string) : option datetime :=
  '(y, s) ← take_digits 4 0 s;
  s ← expect "-" s;
  '(m, s) ← take_digits 2 0 s;
  s ← expect "-" s;
  '(d, s) ← take_digits 2 0 s;
  s ← expect "T" s;
  '(hh, s) ← take_digits 2 0 s;
  s ← expect ":" s;
  '(mm, s) ← take_digits 2 0 s;
  s ← expect ":" s;
  '(ss, s) ← take_digits 2 0 s;
  '(us, s) ← take_fraction s;
  let dt := mkDatetime y m d hh mm ss us in
  if String.eqb s "+00:00" && valid dt then Some dt else None.

(** The user info that the process configuration holds, as the object
    that [/me] would send for it. *)
Definition configured_user (s : Config.Settings) : pyval :=
  PyDict
    [ ("email", PyStr (Config.USER_EMAIL s));
      ("name", PyStr (Config.USER_NAME s));
      ("stack", PyStr (Config.USER_STACK s)) ].

(** A 2xx response whose body [json.loads] turns into a JSON object. *)
Definition json_object (r : Httpx.Response) : bool :=
  match Httpx.body r with
  | Httpx.Decoded (PyDict _) => true
  | _ => false
  end.

Definition nonempty_str (v : pyval) : bool :=
  match v with
  | PyStr s => negb (String.eqb s "")
  | _ => false
  end.

(** The complete success payload around a given fact. *)
Definition payload (env : gmap string string) (now : datetime) (fact : pyval) : pyval :=
  PyDict
    [ ("status", PyStr "success");
      ("user", Services.get_user_info env);
      ("timestamp", PyStr (isoformat now));
      ("fact", fact) ].

End Spec.

(** ** Sample inputs *)

Module Sample.

Import Httpx Main.

Definition t0 : Datetime.datetime := Datetime.mkDatetime 2025 10 18 14 30 45 123456.
Definition t1 : Datetime.datetime := Datetime.mkDatetime 2025 10 18 14 30 46 0.

(** An upstream that answers 200 with the decoded body [v]. *)
Definition answers (v : pyval) : transport :=
  fun _ => Return (mkResponse 200 (Decoded v)).

(** An upstream that answers with a status code and an empty object. *)
Definition status (code : Z) : transport :=
  fun _ => Return (mkResponse code (Decoded (PyDict []))).

(** An upstream that answers 200 with a body that is not JSON. *)
Definition html_page : Response := mkResponse 200 (Malformed false "Expecting value").

Definition fails (c : exc_class) (msg : string) : transport :=
  fun _ => Raise (new_exn c msg).

(** The [str] that [json.loads] makes of the JSON string ["\ud800"]: one
    surrogate code point. *)
Definition lone_surrogate : string :=
  String "237" (String "160" (String "128" EmptyString)).

(** The [str] that [os.getenv] makes of a variable whose value is the one
    byte [0xFF]: the surrogate U+DCFF. *)
Definition escaped_byte : string :=
  String "237" (String "179" (String "191" EmptyString)).

(** A process started with nothing set in the environment and no [.env]. *)
Definition bare : process := startup ∅ ∅.

(** A process started with the three user variables set. *)
Definition configured : process :=
  startup
    (<["USER_EMAIL" := "ada@example.com"]>
       (<["USER_NAME" := "Ada Lovelace"]> (<["USER_STACK" := "Python/FastAPI"]> ∅)))
    ∅.

(** A process started with a [USER_NAME] that is not UTF-8. *)
Definition misencoded : process := startup (<["USER_NAME" := escaped_byte]> ∅) ∅.

End Sample.

(** ** config.py, the server settings and the start-up check *)

Module Checks.

Import Config.

(** [str.lower()].  Only the letters [A] to [Z] become ASCII letters; what
    is compared below is an ASCII word, so the other characters are left
    as they are. *)
Definition lower_char (c : ascii) : ascii :=
  let n := N_of_ascii c in
  if ((65 <=? n) && (n <=? 90))%N then ascii_of_N (n + 32) else c.

Fixpoint lower (s : string) : string :=
  match s with
  | EmptyString => EmptyString
  | String c s' => String (lower_char c) (lower s')
  end.

(** The attributes [HOST], [DEBUG] and [LOG_LEVEL] of [Settings]. *)
Definition HOST (environ : gmap string string) : string :=
  getenv environ "HOST" "0.0.0.0".

Definition DEBUG (environ : gmap string string) : bool :=
  String.eqb (lower (getenv environ "DEBUG" "True")) "true".

Definition LOG_LEVEL (environ : gmap string string) : string :=
  getenv environ "LOG_LEVEL" "INFO".

Definition nl : string := String (ascii_of_N 10) EmptyString.

(** [s * n]. *)
Fixpoint str_mul (s : string) (n : nat) : string :=
  match n with
  | O => EmptyString
  | S n' => s ++ str_mul s n'
  end.

(** The list [warnings] that [validate_settings] collects. *)
Definition warnings (settings : Settings) : list string :=
  (if String.eqb (USER_EMAIL settings) "your.email@example.com"
   then ["⚠️  USER_EMAIL is using default value. Set it in .env file."] else []) ++
  (if String.eqb (USER_NAME settings) "Your Full Name"
   then ["⚠️  USER_NAME is using default value. Set it in .env file."] else []) ++
  (if String.eqb (USER_STACK settings) "JavaScript/Nodejs"
   then ["⚠️  USER_STACK is using default value. You may want to customize it."] else []).

(** [validate_settings()], as the list of the arguments of its [print]
    calls, in order. *)
Definition validate_settings (settings : Settings) : list string :=
  match warnings settings with
  | [] => []
  | ws =>
      [ nl ++ str_mul "=" 60;
        "⚠️  CONFIGURATION WARNINGS:";
        str_mul "=" 60 ] ++
      map (fun warning => "  " ++ warning) ws ++
      [ nl ++ "Please update your .env file with your actual information!";
        str_mul "=" 60 ++ nl ]
  end.

End Checks.

(** ** models.py, the error schema *)

Module ErrorSchema.

(** [ErrorResponse]: an object with a string under [detail]. *)
Definition ErrorResponse (v : pyval) : result pyval :=
  match v with
  | PyDict d =>
      match lookup_item d "detail" with
      | Some (PyStr detail) => Return (PyDict [("detail", PyStr detail)])
      | _ => Raise (new_exn ResponseValidationError "detail")
      end
  | _ => Raise (new_exn ResponseValidationError "model")
  end.

End ErrorSchema.

Import Httpx Fastapi Config Services Main Spec.

(** * Properties *)

(** ** The exception hierarchy *)

Section Hierarchy.

Lemma issubclass_Exception (c : exc_class) : issubclass c Exception = true.
Proof. destruct c; reflexivity. Qed.

Lemma timeout_is_request_error (c : exc_class) :
  issubclass c TimeoutException = true -> issubclass c RequestError = true.
Proof. destruct c; vm_compute; congruence. Qed.

Lemma timeout_not_status_error (c : exc_class) :
  issubclass c TimeoutException = true -> issubclass c HTTPStatusError = false.
Proof. destruct c; vm_compute; congruence. Qed.

Lemma status_error_not_request_error (c : exc_class) :
  issubclass c HTTPStatusError = true -> issubclass c RequestError = false.
Proof. destruct c; vm_compute; congruence. Qed.

Lemma http_exception_is_starlette (c : exc_class) :
  issubclass c HTTPException = true -> issubclass c StarletteHTTPException = true.
Proof. destruct c; vm_compute; congruence. Qed.

End Hierarchy.

(** ** The upstream fact client *)

Section FactClient.

Variable tr : transport.

(** The four ways in which the body of the [try] block ends. *)

Lemma fetch_object (r : Response) (d : list (string * pyval)) :
  tr CAT_FACT_API = Return r ->
  is_success r = true ->
  body r = Decoded (PyDict d) ->
  fetch_cat_fact tr = Return (dict_get d "fact" (PyStr "Cats are amazing creatures!")).
Proof.
  intros Hget Hok Hbody. unfold fetch_cat_fact, raise_for_status, json.
  rewrite Hget. simpl. rewrite Hok. simpl. rewrite Hbody. reflexivity.
Qed.

Lemma fetch_not_object (r : Response) :
  tr CAT_FACT_API = Return r ->
  is_success r = true ->
  json_object r = false ->
  exists msg : string,
    fetch_cat_fact tr =
    Raise (new_HTTPException 500 ("Unexpected error while fetching cat fact: " ++ msg)).
Proof.
  intros Hget Hok Hobj. unfold fetch_cat_fact, raise_for_status, json.
  rewrite Hget. simpl. rewrite Hok. simpl.
  unfold json_object in Hobj.
  destruct (body r) as [v | u msg].
  - destruct v; try discriminate; eexists; reflexivity.
  - destruct u; eexists; reflexivity.
Qed.

Lemma fetch_status_error (r : Response) :
  tr CAT_FACT_API = Return r ->
  is_success r = false ->
  fetch_cat_fact tr =
  Raise (new_HTTPException 503
           ("Cat Facts API returned an error: " ++ Format.str_int (Httpx.status_code r))).
Proof.
  intros Hget Hok. unfold fetch_cat_fact, raise_for_status.
  rewrite Hget. simpl. rewrite Hok. reflexivity.
Qed.

Lemma fetch_handlers (e : exn) :
  tr CAT_FACT_API = Raise e ->
  fetch_cat_fact tr =
  Raise
    (if isinstance e TimeoutException then
       new_HTTPException 503
         "Cat Facts API is taking too long to respond. Please try again."
     else if isinstance e HTTPStatusError then
       new_HTTPException 503
         ("Cat Facts API returned an error: " ++ Format.str_int (exc_code e))
     else if isinstance e RequestError then
       new_HTTPException 503 ("Failed to connect to Cat Facts API: " ++ exc_str e)
     else
       new_HTTPException 500 ("Unexpected error while fetching cat fact: " ++ exc_str e)).
Proof.
  intros Hget. unfold fetch_cat_fact. rewrite Hget. simpl.
  destruct (isinstance e TimeoutException); [reflexivity |].
  destruct (isinstance e HTTPStatusError); [reflexivity |].
  destruct (isinstance e RequestError); [reflexivity |].
  unfold isinstance. rewrite issubclass_Exception. reflexivity.
Qed.

(** Whatever the client raises is an [HTTPException] that already carries
    the status code, 503 or 500. *)
Lemma fetch_raises_http_exception (e : exn) :
  fetch_cat_fact tr = Raise e ->
  exc_type e = HTTPException /\ (exc_code e = 503 \/ exc_code e = 500).
Proof.
  destruct (tr CAT_FACT_API) as [r | e0] eqn:Hget.
  - destruct (is_success r) eqn:Hok.
    + destruct (json_object r) eqn:Hobj.
      * unfold json_object in Hobj.
        destruct (body r) as [[] | ] eqn:Hbody; try discriminate.
        rewrite (fetch_object r d Hget Hok Hbody). discriminate.
      * destruct (fetch_not_object r Hget Hok Hobj) as [msg ->].
        intros [= <-]. auto.
    + rewrite (fetch_status_error r Hget Hok). intros [= <-]. auto.
  - rewrite (fetch_handlers e0 Hget). intros [= <-].
    destruct (isinstance e0 TimeoutException); [auto |].
    destruct (isinstance e0 HTTPStatusError); [auto |].
    destruct (isinstance e0 RequestError); auto.
Qed.

End FactClient.

(** ** Text that always encodes *)

Module TextFacts.

Import Format Datetime.

Lemma isascii_app (s t : string) : isascii (s ++ t) = isascii s && isascii t.
Proof.
  induction s as [| c s IH]; [reflexivity |].
  change (String c s ++ t)%string with (String c (s ++ t)).
  simpl. rewrite IH, andb_assoc. reflexivity.
Qed.

Lemma isascii_has_no_surrogate (s : string) : isascii s = true -> has_surrogate s = false.
Proof.
  induction s as [| c s IH]; [reflexivity |].
  simpl. intros H. apply andb_true_iff in H. destruct H as [Hc Hs].
  rewrite (IH Hs), orb_false_r. destruct s as [| d s']; [reflexivity |].
  unfold surrogate_start. apply N.ltb_lt in Hc.
  destruct (N.eqb_spec (N_of_ascii c) 237) as [E | _]; [lia | reflexivity].
Qed.

Lemma isascii_encodable (s : string) : isascii s = true -> encodable s = true.
Proof. intros H. unfold encodable. rewrite (isascii_has_no_surrogate s H). reflexivity. Qed.

Lemma isascii_fixed (w : nat) (n : N) : isascii (fixed w n) = true.
Proof.
  induction w as [| w IH]; [reflexivity |].
  simpl. rewrite IH, andb_true_r. apply N.ltb_lt.
  unfold digit_char. rewrite N_ascii_embedding.
  - pose proof (N.mod_lt (n / 10 ^ N.of_nat w) 10 ltac:(discriminate)). lia.
  - pose proof (N.mod_lt (n / 10 ^ N.of_nat w) 10 ltac:(discriminate)). lia.
Qed.

Lemma isascii_format_d (w : nat) (n : N) : isascii (format_d w n) = true.
Proof. apply isascii_fixed. Qed.

(** A timestamp is made of digits and ASCII punctuation, whatever the
    clock reading. *)
Lemma isascii_isoformat (dt : datetime) : isascii (isoformat dt) = true.
Proof.
  unfold isoformat, format_time, utc_offset.
  rewrite !isascii_app, !isascii_format_d.
  destruct (microsecond dt =? 0)%N; [reflexivity |].
  rewrite isascii_app, isascii_format_d. reflexivity.
Qed.

Lemma isoformat_encodable (dt : datetime) : encodable (isoformat dt) = true.
Proof. apply isascii_encodable, isascii_isoformat. Qed.

End TextFacts.

(** ** The assembler and the [/me] route *)

Section Profile.

Variable env : gmap string string.
Variable now : Datetime.datetime.
Variable tr : transport.

Lemma build_return (fact : pyval) :
  fetch_cat_fact tr = Return fact ->
  build_profile_response env now tr = Return (payload env now fact).
Proof. intros H. unfold build_profile_response. rewrite H. reflexivity. Qed.

Lemma build_raise (e : exn) :
  fetch_cat_fact tr = Raise e ->
  build_profile_response env now tr = Raise e.
Proof. intros H. unfold build_profile_response. rewrite H. reflexivity. Qed.

Lemma payload_compliant (fact : pyval) :
  json_compliant (payload env now fact) = json_compliant fact.
Proof. simpl. rewrite andb_true_r. reflexivity. Qed.

Lemma user_info_encodable :
  utf8_encodable (get_user_info env) =
  encodable (getenv env "USER_EMAIL" "your.email@example.com") &&
  encodable (getenv env "USER_NAME" "Your Full Name") &&
  encodable (getenv env "USER_STACK" "Python/FastAPI").
Proof.
  unfold get_user_info. cbn [utf8_encodable forallb fst snd].
  change (encodable "email") with true. change (encodable "name") with true.
  change (encodable "stack") with true.
  cbn [andb]. rewrite andb_true_r, andb_assoc. reflexivity.
Qed.

Lemma payload_encodable (fact : pyval) :
  utf8_encodable (payload env now fact) =
  utf8_encodable (get_user_info env) && utf8_encodable fact.
Proof.
  unfold payload. cbn [utf8_encodable forallb fst snd].
  rewrite TextFacts.isoformat_encodable.
  change (encodable "status") with true. change (encodable "success") with true.
  change (encodable "user") with true. change (encodable "timestamp") with true.
  change (encodable "fact") with true.
  cbn [andb]. rewrite andb_true_r. reflexivity.
Qed.

(** The payload can be rendered when the fact and the user fields can. *)
Lemma payload_renderable (fact : pyval) :
  renderable (payload env now fact) =
  renderable fact && utf8_encodable (get_user_info env).
Proof.
  unfold renderable. rewrite payload_compliant, payload_encodable.
  destruct (json_compliant fact), (utf8_encodable fact),
    (utf8_encodable (get_user_info env)); reflexivity.
Qed.

Lemma get_profile_return (fact : pyval) :
  fetch_cat_fact tr = Return fact ->
  renderable (payload env now fact) = true ->
  get_profile env now tr =
  Return (mkJSONResponse (payload env now fact) 200 [("Content-Type", "application/json")]).
Proof.
  intros H Hc. unfold get_profile. rewrite (build_return fact H). simpl bind.
  unfold renderable in Hc. apply andb_true_iff in Hc. destruct Hc as [Hj Hu].
  unfold new_JSONResponse. rewrite Hj, Hu. reflexivity.
Qed.

Lemma get_profile_unrenderable (fact : pyval) :
  fetch_cat_fact tr = Return fact ->
  renderable (payload env now fact) = false ->
  exists msg : string,
    get_profile env now tr =
    Raise (new_HTTPException 500 ("Internal server error: " ++ msg)).
Proof.
  intros H Hc. unfold get_profile. rewrite (build_return fact H). simpl bind.
  unfold renderable in Hc. unfold new_JSONResponse.
  destruct (json_compliant (payload env now fact)).
  - cbn [andb] in Hc. rewrite Hc. eexists. reflexivity.
  - eexists. reflexivity.
Qed.

Lemma get_profile_raise (e : exn) :
  fetch_cat_fact tr = Raise e ->
  get_profile env now tr = Raise e.
Proof.
  intros H. destruct (fetch_raises_http_exception tr e H) as [Hty _].
  unfold get_profile. rewrite (build_raise e H). simpl.
  unfold isinstance. rewrite Hty. reflexivity.
Qed.

End Profile.

(** ** The [/me] route as the client sees it *)

Section MeRoute.

Variable p : process.
Variable w : world.

Lemma me_of_fact (fact : pyval) :
  fetch_cat_fact (client_get w) = Return fact ->
  renderable (payload (environ p) (now w) fact) = true ->
  app p w GET_me =
  mkJSONResponse (payload (environ p) (now w) fact) 200
    [("Content-Type", "application/json")].
Proof.
  intros H Hc. unfold app, handle.
  rewrite (get_profile_return _ _ _ fact H Hc). reflexivity.
Qed.

Lemma me_of_unrenderable_fact (fact : pyval) :
  fetch_cat_fact (client_get w) = Return fact ->
  renderable (payload (environ p) (now w) fact) = false ->
  exists msg : string,
    app p w GET_me =
    mkJSONResponse (PyDict [("detail", PyStr ("Internal server error: " ++ msg))]) 500 [].
Proof.
  intros H Hc. unfold app, handle.
  destruct (get_profile_unrenderable _ _ _ fact H Hc) as [msg ->].
  exists msg. reflexivity.
Qed.

Lemma me_of_failure (e : exn) :
  fetch_cat_fact (client_get w) = Raise e ->
  app p w GET_me = mkJSONResponse (PyDict [("detail", PyStr (exc_str e))]) (exc_code e) [].
Proof.
  intros H. unfold app, handle. rewrite (get_profile_raise _ _ _ e H).
  destruct (fetch_raises_http_exception _ e H) as [Hty _].
  unfold respond, isinstance. rewrite Hty. reflexivity.
Qed.

(** A 200 answer of [/me] is the complete payload around the fact that the
    client returned. *)
Lemma me_200_content :
  Fastapi.status_code (app p w GET_me) = 200 ->
  exists fact : pyval,
    fetch_cat_fact (client_get w) = Return fact /\
    content (app p w GET_me) = payload (environ p) (now w) fact.
Proof.
  intros H200.
  destruct (fetch_cat_fact (client_get w)) as [fact | e] eqn:Hf.
  - destruct (renderable (payload (environ p) (now w) fact)) eqn:Hc.
    + exists fact. rewrite (me_of_fact fact Hf Hc). auto.
    + destruct (me_of_unrenderable_fact fact Hf Hc) as [msg Hm].
      rewrite Hm in H200. discriminate.
  - rewrite (me_of_failure e Hf) in H200. simpl in H200.
    destruct (fetch_raises_http_exception _ e Hf) as [_ [Hc | Hc]]; lia.
Qed.

End MeRoute.

(** ** The claims about the upstream body *)




(** C5, as stated, fails: the JSON string ["\ud800"] is a string that the
    upstream can send under [fact]; [fetch_cat_fact] returns it, the answer
    cannot be encoded, and [/me] answers 500, not 200. *)
Lemma C5_surrogate_fact_answers_500 :
  is_success (mkResponse 200 (Decoded (PyDict [("fact", PyStr Sample.lone_surrogate)]))) = true /\
  lookup_item [("fact", PyStr Sample.lone_surrogate)] "fact" =
    Some (PyStr Sample.lone_surrogate) /\
  fetch_cat_fact (Sample.answers (PyDict [("fact", PyStr Sample.lone_surrogate)])) =
    Return (PyStr Sample.lone_surrogate) /\
  Fastapi.status_code
    (app Sample.bare
       (mkWorld Sample.t0 (Sample.answers (PyDict [("fact", PyStr Sample.lone_surrogate)])))
       GET_me) = 500.
Proof. repeat split; reflexivity. Qed.

(** C5, amended: for every 2xx upstream response whose JSON object holds a
    string under [fact], [/me] answers 200 and the [fact] field of the
    answer is exactly that string, provided that the string and the three
    user fields can be encoded as UTF-8 (they hold no surrogate code
    point); when one of them cannot, [/me] answers 500. *)
Theorem C5_fact_string_passed_through (p : process) (w : world) (r : Response)
    (items : list (string * pyval)) (s : string) :
  client_get w CAT_FACT_API = Return r ->
  is_success r = true ->
  body r = Decoded (PyDict items) ->
  lookup_item items "fact" = Some (PyStr s) ->
  (encodable s = true -> utf8_encodable (get_user_info (environ p)) = true ->
     Fastapi.status_code (app p w GET_me) = 200 /\
     field (app p w GET_me) "fact" = Some (PyStr s)) /\
  (encodable s && utf8_encodable (get_user_info (environ p)) = false ->
     Fastapi.status_code (app p w GET_me) = 500).
Proof.
  intros Hget Hok Hbody Hfact.
  pose proof (fetch_object _ r items Hget Hok Hbody) as Hf.
  unfold dict_get in Hf. rewrite Hfact in Hf.
  assert (renderable (payload (environ p) (now w) (PyStr s)) =
          encodable s && utf8_encodable (get_user_info (environ p))) as Hr
    by (rewrite payload_renderable; reflexivity).
  split.
  - intros Hs Hu. rewrite Hs, Hu in Hr.
    rewrite (me_of_fact p w _ Hf Hr). auto.
  - intros Hno. rewrite Hno in Hr.
    destruct (me_of_unrenderable_fact p w _ Hf Hr) as [msg ->]. reflexivity.
Qed.

Lemma C5_fact_string_witness :
  (Fastapi.status_code
     (app Sample.bare
        (mkWorld Sample.t0 (Sample.answers (PyDict [("fact", PyStr "Cats purr."); ("length", PyInt 10)])))
        GET_me) = 200 /\
   field
     (app Sample.bare
        (mkWorld Sample.t0 (Sample.answers (PyDict [("fact", PyStr "Cats purr."); ("length", PyInt 10)])))
        GET_me) "fact" = Some (PyStr "Cats purr.")) /\
  Fastapi.status_code
    (app Sample.bare
       (mkWorld Sample.t0 (Sample.answers (PyDict [("fact", PyStr Sample.lone_surrogate)])))
       GET_me) = 500.
Proof.
  split.
  - apply (proj1 (C5_fact_string_passed_through Sample.bare
             (mkWorld Sample.t0
                (Sample.answers (PyDict [("fact", PyStr "Cats purr."); ("length", PyInt 10)])))
             (mkResponse 200 (Decoded (PyDict [("fact", PyStr "Cats purr."); ("length", PyInt 10)])))
             [("fact", PyStr "Cats purr."); ("length", PyInt 10)] "Cats purr."
             eq_refl eq_refl eq_refl eq_refl)); reflexivity.
  - apply (proj2 (C5_fact_string_passed_through Sample.bare
             (mkWorld Sample.t0 (Sample.answers (PyDict [("fact", PyStr Sample.lone_surrogate)])))
             (mkResponse 200 (Decoded (PyDict [("fact", PyStr Sample.lone_surrogate)])))
             [("fact", PyStr Sample.lone_surrogate)] Sample.lone_surrogate
             eq_refl eq_refl eq_refl eq_refl)); reflexivity.
Defined.

(** C6, as stated, fails: in a process started with a [USER_NAME] that is
    not UTF-8 the name that [os.getenv] returns holds a surrogate, the
    answer cannot be encoded, and [/me] answers 500 for an upstream object
    without [fact], not 200 with the fallback string. *)
Lemma C6_misencoded_user_answers_500 :
  is_success (mkResponse 200 (Decoded (PyDict []))) = true /\
  lookup_item [] "fact" = None /\
  fetch_cat_fact (Sample.answers (PyDict [])) =
    Return (PyStr "Cats are amazing creatures!") /\
  Fastapi.status_code
    (app Sample.misencoded (mkWorld Sample.t0 (Sample.answers (PyDict []))) GET_me) = 500.
Proof. repeat split; reflexivity. Qed.

(** C6, amended: for every 2xx upstream response whose JSON object has no
    key [fact], [/me] answers 200 with the fallback string in [fact],
    provided that the three user fields can be encoded as UTF-8 (they hold
    no surrogate code point); when one cannot, [/me] answers 500. *)
Theorem C6_missing_fact_gives_fallback (p : process) (w : world) (r : Response)
    (items : list (string * pyval)) :
  client_get w CAT_FACT_API = Return r ->
  is_success r = true ->
  body r = Decoded (PyDict items) ->
  lookup_item items "fact" = None ->
  (utf8_encodable (get_user_info (environ p)) = true ->
     Fastapi.status_code (app p w GET_me) = 200 /\
     field (app p w GET_me) "fact" = Some (PyStr "Cats are amazing creatures!")) /\
  (utf8_encodable (get_user_info (environ p)) = false ->
     Fastapi.status_code (app p w GET_me) = 500).
Proof.
  intros Hget Hok Hbody Hfact.
  pose proof (fetch_object _ r items Hget Hok Hbody) as Hf.
  unfold dict_get in Hf. rewrite Hfact in Hf.
  assert (renderable (payload (environ p) (now w) (PyStr "Cats are amazing creatures!")) =
          utf8_encodable (get_user_info (environ p))) as Hr
    by (rewrite payload_renderable; reflexivity).
  split.
  - intros Hu. rewrite Hu in Hr. rewrite (me_of_fact p w _ Hf Hr). auto.
  - intros Hno. rewrite Hno in Hr.
    destruct (me_of_unrenderable_fact p w _ Hf Hr) as [msg ->]. reflexivity.
Qed.

Lemma C6_missing_fact_witness :
  (Fastapi.status_code
     (app Sample.bare (mkWorld Sample.t0 (Sample.answers (PyDict [("length", PyInt 10)]))) GET_me)
     = 200 /\
   field
     (app Sample.bare (mkWorld Sample.t0 (Sample.answers (PyDict [("length", PyInt 10)]))) GET_me)
     "fact" = Some (PyStr "Cats are amazing creatures!")) /\
  Fastapi.status_code
    (app Sample.misencoded (mkWorld Sample.t0 (Sample.answers (PyDict [("length", PyInt 10)])))
       GET_me) = 500.
Proof.
  split.
  - apply (proj1 (C6_missing_fact_gives_fallback Sample.bare
             (mkWorld Sample.t0 (Sample.answers (PyDict [("length", PyInt 10)])))
             (mkResponse 200 (Decoded (PyDict [("length", PyInt 10)])))
             [("length", PyInt 10)] eq_refl eq_refl eq_refl eq_refl)); reflexivity.
  - apply (proj2 (C6_missing_fact_gives_fallback Sample.misencoded
             (mkWorld Sample.t0 (Sample.answers (PyDict [("length", PyInt 10)])))
             (mkResponse 200 (Decoded (PyDict [("length", PyInt 10)])))
             [("length", PyInt 10)] eq_refl eq_refl eq_refl eq_refl)); reflexivity.
Defined.

(** C10, as stated, fails: a number too large for a double is a non-string
    [fact] that [fetch_cat_fact] returns unchanged, but the answer cannot be
    rendered and [/me] answers 500, not 200.  (The body [{"fact": 1e999}]
    decodes to the float infinity.) *)
Lemma C10_infinite_fact_answers_500 :
  is_str (PyFloat (S754_infinity false)) = false /\
  fetch_cat_fact (Sample.answers (PyDict [("fact", PyFloat (S754_infinity false))])) =
    Return (PyFloat (S754_infinity false)) /\
  Fastapi.status_code
    (app Sample.bare
       (mkWorld Sample.t0 (Sample.answers (PyDict [("fact", PyFloat (S754_infinity false))])))
       GET_me) = 500.
Proof. repeat split; reflexivity. Qed.

(** C10, amended: for every 2xx upstream response whose JSON object binds
    [fact] to a value that is not a string, [fetch_cat_fact] returns that
    value unchanged rather than the fallback string; [/me] sends it in a
    200 answer, whose [fact] field is then not a string, whenever the value
    and the user fields can be rendered (no float that is infinite or not a
    number, no string that holds a surrogate code point), and answers 500
    when the value or the user fields cannot. *)
Theorem C10_non_string_fact_unchanged (p : process) (w : world) (r : Response)
    (items : list (string * pyval)) (v : pyval) :
  client_get w CAT_FACT_API = Return r ->
  is_success r = true ->
  body r = Decoded (PyDict items) ->
  lookup_item items "fact" = Some v ->
  is_str v = false ->
  fetch_cat_fact (client_get w) = Return v /\
  v <> PyStr "Cats are amazing creatures!" /\
  (renderable v = true -> utf8_encodable (get_user_info (environ p)) = true ->
     Fastapi.status_code (app p w GET_me) = 200 /\
     field (app p w GET_me) "fact" = Some v) /\
  (renderable v && utf8_encodable (get_user_info (environ p)) = false ->
     Fastapi.status_code (app p w GET_me) = 500).
Proof.
  intros Hget Hok Hbody Hfact Hstr.
  pose proof (fetch_object _ r items Hget Hok Hbody) as Hf.
  unfold dict_get in Hf. rewrite Hfact in Hf.
  pose proof (payload_renderable (environ p) (now w) v) as Hr.
  split; [exact Hf |]. split; [intros ->; discriminate |]. split.
  - intros Hv Hu. rewrite Hv, Hu in Hr. rewrite (me_of_fact p w _ Hf Hr). auto.
  - intros Hno. rewrite Hno in Hr.
    destruct (me_of_unrenderable_fact p w _ Hf Hr) as [msg ->]. reflexivity.
Qed.

Lemma C10_non_string_fact_witness :
  fetch_cat_fact (Sample.answers (PyDict [("fact", PyNone)])) = Return PyNone /\
  (Fastapi.status_code
     (app Sample.bare (mkWorld Sample.t0 (Sample.answers (PyDict [("fact", PyNone)]))) GET_me)
     = 200 /\
   field
     (app Sample.bare (mkWorld Sample.t0 (Sample.answers (PyDict [("fact", PyNone)]))) GET_me)
     "fact" = Some PyNone) /\
  Fastapi.status_code
    (app Sample.bare
       (mkWorld Sample.t0 (Sample.answers (PyDict [("fact", PyList [PyStr Sample.lone_surrogate])])))
       GET_me) = 500.
Proof.
  split; [| split].
  - apply (proj1 (C10_non_string_fact_unchanged Sample.bare
             (mkWorld Sample.t0 (Sample.answers (PyDict [("fact", PyNone)])))
             (mkResponse 200 (Decoded (PyDict [("fact", PyNone)])))
             [("fact", PyNone)] PyNone eq_refl eq_refl eq_refl eq_refl eq_refl)).
  - apply (proj1 (proj2 (proj2 (C10_non_string_fact_unchanged Sample.bare
             (mkWorld Sample.t0 (Sample.answers (PyDict [("fact", PyNone)])))
             (mkResponse 200 (Decoded (PyDict [("fact", PyNone)])))
             [("fact", PyNone)] PyNone eq_refl eq_refl eq_refl eq_refl eq_refl))));
      reflexivity.
  - apply (proj2 (proj2 (proj2 (C10_non_string_fact_unchanged Sample.bare
             (mkWorld Sample.t0
                (Sample.answers (PyDict [("fact", PyList [PyStr Sample.lone_surrogate])])))
             (mkResponse 200 (Decoded (PyDict [("fact", PyList [PyStr Sample.lone_surrogate])])))
             [("fact", PyList [PyStr Sample.lone_surrogate])]
             (PyList [PyStr Sample.lone_surrogate])
             eq_refl eq_refl eq_refl eq_refl eq_refl)))); reflexivity.
Defined.

(** ** The claims about failures *)

(** C4: every failure of the upstream call is mapped to one status by its
    kind.  A timeout, an upstream 4xx or 5xx status (500 included; the
    detail shows the upstream status code) and a network error each give
    503 with a message; any other exception, raised by the request or by
    the reading of the body, gives 500. *)
Theorem C4_failure_kinds_to_status (p : process) (w : world) :
  (forall e : exn,
     client_get w CAT_FACT_API = Raise e ->
     isinstance e TimeoutException = true ->
     Fastapi.status_code (app p w GET_me) = 503 /\
     field (app p w GET_me) "detail" =
       Some (PyStr "Cat Facts API is taking too long to respond. Please try again.")) /\
  (forall r : Response,
     client_get w CAT_FACT_API = Return r ->
     400 <= Httpx.status_code r <= 599 ->
     Fastapi.status_code (app p w GET_me) = 503 /\
     field (app p w GET_me) "detail" =
       Some (PyStr ("Cat Facts API returned an error: " ++
                    Format.str_int (Httpx.status_code r)))) /\
  (forall e : exn,
     client_get w CAT_FACT_API = Raise e ->
     isinstance e RequestError = true ->
     isinstance e TimeoutException = false ->
     Fastapi.status_code (app p w GET_me) = 503 /\
     field (app p w GET_me) "detail" =
       Some (PyStr ("Failed to connect to Cat Facts API: " ++ exc_str e))) /\
  (forall e : exn,
     client_get w CAT_FACT_API = Raise e ->
     isinstance e RequestError = false ->
     isinstance e HTTPStatusError = false ->
     Fastapi.status_code (app p w GET_me) = 500) /\
  (forall r : Response,
     client_get w CAT_FACT_API = Return r ->
     is_success r = true ->
     json_object r = false ->
     Fastapi.status_code (app p w GET_me) = 500).
Proof.
  split; [| split; [| split; [| split]]].
  - intros e Hget Ht.
    pose proof (fetch_handlers _ e Hget) as Hf. rewrite Ht in Hf.
    rewrite (me_of_failure p w _ Hf). split; reflexivity.
  - intros r Hget Hcode.
    assert (is_success r = false) as Hok by (unfold is_success; lia).
    rewrite (me_of_failure p w _ (fetch_status_error _ r Hget Hok)).
    split; reflexivity.
  - intros e Hget Hr Ht.
    pose proof (fetch_handlers _ e Hget) as Hf. rewrite Ht, Hr in Hf.
    assert (isinstance e HTTPStatusError = false) as Hs.
    { destruct (isinstance e HTTPStatusError) eqn:E; [| reflexivity].
      apply status_error_not_request_error in E. unfold isinstance in Hr. congruence. }
    rewrite Hs in Hf. rewrite (me_of_failure p w _ Hf). split; reflexivity.
  - intros e Hget Hr Hs.
    pose proof (fetch_handlers _ e Hget) as Hf. rewrite Hr, Hs in Hf.
    assert (isinstance e TimeoutException = false) as Ht.
    { destruct (isinstance e TimeoutException) eqn:E; [| reflexivity].
      apply timeout_is_request_error in E. unfold isinstance in Hr. congruence. }
    rewrite Ht in Hf. rewrite (me_of_failure p w _ Hf). reflexivity.
  - intros r Hget Hok Hobj.
    destruct (fetch_not_object _ r Hget Hok Hobj) as [msg Hf].
    rewrite (me_of_failure p w _ Hf). reflexivity.
Qed.

Lemma C4_failure_kinds_witness :
  (Fastapi.status_code
     (app Sample.bare (mkWorld Sample.t0 (Sample.fails ReadTimeout "timed out")) GET_me) = 503 /\
   field (app Sample.bare (mkWorld Sample.t0 (Sample.fails ReadTimeout "timed out")) GET_me)
     "detail" =
     Some (PyStr "Cat Facts API is taking too long to respond. Please try again.")) /\
  (Fastapi.status_code (app Sample.bare (mkWorld Sample.t0 (Sample.status 500)) GET_me) = 503 /\
   field (app Sample.bare (mkWorld Sample.t0 (Sample.status 500)) GET_me) "detail" =
     Some (PyStr "Cat Facts API returned an error: 500")) /\
  (Fastapi.status_code
     (app Sample.bare (mkWorld Sample.t0 (Sample.fails ConnectError "refused")) GET_me) = 503 /\
   field (app Sample.bare (mkWorld Sample.t0 (Sample.fails ConnectError "refused")) GET_me)
     "detail" = Some (PyStr "Failed to connect to Cat Facts API: refused")) /\
  Fastapi.status_code
    (app Sample.bare (mkWorld Sample.t0 (Sample.fails RuntimeError "closed")) GET_me) = 500 /\
  Fastapi.status_code
    (app Sample.bare (mkWorld Sample.t0 (fun _ => Return Sample.html_page)) GET_me) = 500.
Proof.
  split; [| split; [| split; [| split]]].
  - apply (proj1 (C4_failure_kinds_to_status Sample.bare
                    (mkWorld Sample.t0 (Sample.fails ReadTimeout "timed out")))
             (new_exn ReadTimeout "timed out")); reflexivity.
  - apply (proj1 (proj2 (C4_failure_kinds_to_status Sample.bare
                           (mkWorld Sample.t0 (Sample.status 500))))
             (mkResponse 500 (Decoded (PyDict [])))); [reflexivity | simpl; lia].
  - apply (proj1 (proj2 (proj2 (C4_failure_kinds_to_status Sample.bare
                                  (mkWorld Sample.t0 (Sample.fails ConnectError "refused")))))
             (new_exn ConnectError "refused")); reflexivity.
  - apply (proj1 (proj2 (proj2 (proj2 (C4_failure_kinds_to_status Sample.bare
                                  (mkWorld Sample.t0 (Sample.fails RuntimeError "closed"))))))
             (new_exn RuntimeError "closed")); reflexivity.
  - apply (proj2 (proj2 (proj2 (proj2 (C4_failure_kinds_to_status Sample.bare
                                  (mkWorld Sample.t0 (fun _ => Return Sample.html_page))))))
             Sample.html_page); reflexivity.
Defined.

(** C7, as stated, fails: the failure does not reach the HTTP surface as
    it was raised.  A read timeout leaves [fetch_cat_fact] as an
    [HTTPException] that already holds the status 503, and [get_profile]
    passes that exception on without choosing any status. *)
Lemma C7_status_chosen_in_the_client :
  fetch_cat_fact (Sample.fails ReadTimeout "timed out") <>
    Raise (new_exn ReadTimeout "timed out") /\
  fetch_cat_fact (Sample.fails ReadTimeout "timed out") =
    Raise (new_HTTPException 503
             "Cat Facts API is taking too long to respond. Please try again.") /\
  build_profile_response ∅ Sample.t0 (Sample.fails ReadTimeout "timed out") <>
    Raise (new_exn ReadTimeout "timed out") /\
  get_profile ∅ Sample.t0 (Sample.fails ReadTimeout "timed out") =
    Raise (new_HTTPException 503
             "Cat Facts API is taking too long to respond. Please try again.").
Proof. repeat split; try reflexivity; discriminate. Qed.

(** C7, amended: every upstream failure is turned into an [HTTPException]
    holding its HTTP status code (503 or 500) inside the upstream fact
    client; that exception passes unmodified, with no substituted default,
    through the response assembler and through [get_profile], and the
    answer carries its status code and its detail. *)
Theorem C7_failure_translated_in_client (env : gmap string string)
    (now : Datetime.datetime) (tr : transport) (e : exn) :
  fetch_cat_fact tr = Raise e ->
  exc_type e = HTTPException /\
  (exc_code e = 503 \/ exc_code e = 500) /\
  build_profile_response env now tr = Raise e /\
  get_profile env now tr = Raise e /\
  respond (get_profile env now tr) =
    mkJSONResponse (PyDict [("detail", PyStr (exc_str e))]) (exc_code e) [].
Proof.
  intros Hf. destruct (fetch_raises_http_exception tr e Hf) as [Hty Hcode].
  rewrite (get_profile_raise env now tr e Hf), (build_raise env now tr e Hf).
  repeat split; try assumption.
  unfold respond, isinstance. rewrite Hty. reflexivity.
Qed.

Lemma C7_failure_translated_witness :
  let e := new_HTTPException 503 ("Cat Facts API returned an error: " ++ "404") in
  exc_type e = HTTPException /\
  (exc_code e = 503 \/ exc_code e = 500) /\
  build_profile_response ∅ Sample.t0 (Sample.status 404) = Raise e /\
  get_profile ∅ Sample.t0 (Sample.status 404) = Raise e /\
  respond (get_profile ∅ Sample.t0 (Sample.status 404)) =
    mkJSONResponse (PyDict [("detail", PyStr (exc_str e))]) (exc_code e) [].
Proof.
  apply (C7_failure_translated_in_client ∅ Sample.t0 (Sample.status 404)).
  reflexivity.
Defined.

(** ** The claims about the success payload *)

(** C3, as stated, fails: an upstream fact that is the empty string gives
    a success payload, and a 200 answer, whose [fact] is empty. *)
Lemma C3_empty_fact_in_success :
  build_profile_response ∅ Sample.t0 (Sample.answers (PyDict [("fact", PyStr "")])) =
    Return (payload ∅ Sample.t0 (PyStr "")) /\
  nonempty_str (PyStr "") = false /\
  Fastapi.status_code
    (app Sample.bare (mkWorld Sample.t0 (Sample.answers (PyDict [("fact", PyStr "")]))) GET_me)
    = 200 /\
  field
    (app Sample.bare (mkWorld Sample.t0 (Sample.answers (PyDict [("fact", PyStr "")]))) GET_me)
    "fact" = Some (PyStr "").
Proof. repeat split; reflexivity. Qed.

(** C3, amended: every successful result of [build_profile_response] has
    all four fields: [status] equal to "success", a user object of three
    strings, a timestamp string, and under [fact] the value that the
    upstream object binds to [fact], or the fallback string when it binds
    none; that value is a non-empty string whenever the upstream one is, or
    is absent.  The content of every 200 answer of [/me] is such a
    result. *)
Theorem C3_success_payload_complete (env : gmap string string)
    (now : Datetime.datetime) (tr : transport) (d : pyval) :
  build_profile_response env now tr = Return d ->
  exists (r : Response) (items : list (string * pyval)) (fact : pyval),
    tr CAT_FACT_API = Return r /\ is_success r = true /\
    body r = Decoded (PyDict items) /\
    fact = dict_get items "fact" (PyStr "Cats are amazing creatures!") /\
    d = PyDict
          [ ("status", PyStr "success");
            ("user", PyDict
               [ ("email", PyStr (getenv env "USER_EMAIL" "your.email@example.com"));
                 ("name", PyStr (getenv env "USER_NAME" "Your Full Name"));
                 ("stack", PyStr (getenv env "USER_STACK" "Python/FastAPI")) ]);
            ("timestamp", PyStr (Datetime.isoformat now));
            ("fact", fact) ] /\
    (lookup_item items "fact" = None -> nonempty_str fact = true) /\
    (forall v, lookup_item items "fact" = Some v -> nonempty_str fact = nonempty_str v) /\
    (forall (p : process) (w : world),
       environ p = env -> Main.now w = now -> client_get w = tr ->
       Fastapi.status_code (app p w GET_me) = 200 ->
       content (app p w GET_me) = d).
Proof.
  intros Hb.
  destruct (fetch_cat_fact tr) as [fact | e] eqn:Hf;
    [| rewrite (build_raise env now tr e Hf) in Hb; discriminate].
  rewrite (build_return env now tr fact Hf) in Hb. injection Hb as <-.
  destruct (tr CAT_FACT_API) as [r | e0] eqn:Hget;
    [| rewrite (fetch_handlers tr e0 Hget) in Hf; discriminate].
  destruct (is_success r) eqn:Hok;
    [| rewrite (fetch_status_error tr r Hget Hok) in Hf; discriminate].
  destruct (json_object r) eqn:Hobj;
    [| destruct (fetch_not_object tr r Hget Hok Hobj) as [msg Hm]; congruence].
  unfold json_object in Hobj.
  destruct (body r) as [[] | ] eqn:Hbody; try discriminate.
  rename d into items.
  rewrite (fetch_object tr r items Hget Hok Hbody) in Hf. injection Hf as <-.
  exists r, items, (dict_get items "fact" (PyStr "Cats are amazing creatures!")).
  do 5 (split; [assumption || reflexivity |]). split; [| split].
  - unfold dict_get. intros ->. reflexivity.
  - unfold dict_get. intros v ->. reflexivity.
  - intros p w <- <- <- H200.
    destruct (me_200_content p w H200) as [fact [Hf Hc]].
    rewrite Hc. f_equal.
    rewrite (fetch_object _ r items Hget Hok Hbody) in Hf. congruence.
Qed.

Lemma C3_success_payload_witness :
  exists (r : Response) (items : list (string * pyval)) (fact : pyval),
    Sample.answers (PyDict [("fact", PyStr "Cats purr.")]) CAT_FACT_API = Return r /\
    is_success r = true /\
    body r = Decoded (PyDict items) /\
    fact = dict_get items "fact" (PyStr "Cats are amazing creatures!") /\
    payload ∅ Sample.t0 (PyStr "Cats purr.") =
      PyDict
        [ ("status", PyStr "success");
          ("user", PyDict
             [ ("email", PyStr (getenv ∅ "USER_EMAIL" "your.email@example.com"));
               ("name", PyStr (getenv ∅ "USER_NAME" "Your Full Name"));
               ("stack", PyStr (getenv ∅ "USER_STACK" "Python/FastAPI")) ]);
          ("timestamp", PyStr (Datetime.isoformat Sample.t0));
          ("fact", fact) ] /\
    (lookup_item items "fact" = None -> nonempty_str fact = true) /\
    (forall v, lookup_item items "fact" = Some v -> nonempty_str fact = nonempty_str v) /\
    (forall (p : process) (w : world),
       environ p = ∅ -> Main.now w = Sample.t0 ->
       client_get w = Sample.answers (PyDict [("fact", PyStr "Cats purr.")]) ->
       Fastapi.status_code (app p w GET_me) = 200 ->
       content (app p w GET_me) = payload ∅ Sample.t0 (PyStr "Cats purr.")).
Proof.
  apply (C3_success_payload_complete ∅ Sample.t0
           (Sample.answers (PyDict [("fact", PyStr "Cats purr.")]))
           (payload ∅ Sample.t0 (PyStr "Cats purr."))).
  reflexivity.
Defined.

(** ** The claim about the user fields *)

Section UserFields.

(** The handler reads the environment of the moment of the request. *)
Lemma me_user_from_environment (p : process) (env : gmap string string) (w : world) :
  Fastapi.status_code (handle p env w GET_me) = 200 ->
  field (handle p env w GET_me) "user" = Some (get_user_info env).
Proof.
  change (handle p env w GET_me) with (app (mkProcess env (settings p)) w GET_me).
  intros H200. destruct (me_200_content _ w H200) as [fact [_ Hc]].
  unfold field. rewrite Hc. reflexivity.
Qed.

Lemma getenv_set (env : gmap string string) (key d1 d2 : string) :
  is_Some (env !! key) -> getenv env key d1 = getenv env key d2.
Proof. intros [v Hv]. unfold getenv. rewrite Hv. reflexivity. Qed.

End UserFields.

(** C2, as stated, fails: in a process started with [USER_STACK] unset
    the configuration holds the stack "JavaScript/Nodejs", while the user
    object of [/me] has "Python/FastAPI"; and the handler reads the
    environment of the moment of the request, so a name set after start-up
    is the one that is sent. *)
Lemma C2_default_stack_differs :
  Fastapi.status_code
    (app Sample.bare (mkWorld Sample.t0 (Sample.answers (PyDict []))) GET_me) = 200 /\
  field (app Sample.bare (mkWorld Sample.t0 (Sample.answers (PyDict []))) GET_me) "user" =
    Some (PyDict [ ("email", PyStr "your.email@example.com");
                   ("name", PyStr "Your Full Name");
                   ("stack", PyStr "Python/FastAPI") ]) /\
  configured_user (settings Sample.bare) =
    PyDict [ ("email", PyStr "your.email@example.com");
             ("name", PyStr "Your Full Name");
             ("stack", PyStr "JavaScript/Nodejs") ] /\
  field (app Sample.bare (mkWorld Sample.t0 (Sample.answers (PyDict []))) GET_me) "user" <>
    Some (configured_user (settings Sample.bare)) /\
  field
    (handle Sample.bare (<["USER_NAME" := "Grace Hopper"]> ∅)
       (mkWorld Sample.t1 (Sample.answers (PyDict []))) GET_me) "user" =
    Some (PyDict [ ("email", PyStr "your.email@example.com");
                   ("name", PyStr "Grace Hopper");
                   ("stack", PyStr "Python/FastAPI") ]).
Proof. repeat split; try reflexivity. discriminate. Qed.

(** C2, amended: the user object of every 200 answer of [/me] is built on
    each request from the process environment ([USER_EMAIL], [USER_NAME],
    [USER_STACK], each with a default), not from the settings object.
    Within one process run, where the environment stays as it was at
    start-up, all 200 answers carry the same user object; its email and
    name are the configured ones, and so is its stack when [USER_STACK] is
    set. *)
Theorem C2_user_fields_from_environment (os_environ dotenv : gmap string string)
    (w w' : world) :
  let p := startup os_environ dotenv in
  Fastapi.status_code (app p w GET_me) = 200 ->
  Fastapi.status_code (app p w' GET_me) = 200 ->
  field (app p w GET_me) "user" = Some (get_user_info (environ p)) /\
  field (app p w' GET_me) "user" = field (app p w GET_me) "user" /\
  (exists stack : string,
     field (app p w GET_me) "user" =
       Some (PyDict [ ("email", PyStr (USER_EMAIL (settings p)));
                      ("name", PyStr (USER_NAME (settings p)));
                      ("stack", PyStr stack) ]) /\
     (is_Some (environ p !! "USER_STACK") ->
        stack = USER_STACK (settings p) /\
        field (app p w GET_me) "user" = Some (configured_user (settings p)))) /\
  (forall env : gmap string string,
     Fastapi.status_code (handle p env w GET_me) = 200 ->
     field (handle p env w GET_me) "user" = Some (get_user_info env)).
Proof.
  intros p H200 H200'.
  pose proof (me_user_from_environment p (environ p) w H200) as Hu.
  pose proof (me_user_from_environment p (environ p) w' H200') as Hu'.
  change (handle p (environ p) w GET_me) with (app p w GET_me) in Hu.
  change (handle p (environ p) w' GET_me) with (app p w' GET_me) in Hu'.
  split; [exact Hu |]. split; [congruence |]. split.
  - exists (getenv (environ p) "USER_STACK" "Python/FastAPI").
    split; [exact Hu |]. intros Hset.
    assert (getenv (environ p) "USER_STACK" "Python/FastAPI" = USER_STACK (settings p)) as E
      by (apply (getenv_set _ _ _ _ Hset)).
    split; [exact E |]. rewrite Hu. unfold get_user_info, configured_user.
    rewrite E. reflexivity.
  - intros env. apply me_user_from_environment.
Qed.

Lemma C2_user_fields_witness :
  let p := Sample.configured in
  let w := mkWorld Sample.t0 (Sample.answers (PyDict [])) in
  let w' := mkWorld Sample.t1 (Sample.answers (PyDict [("fact", PyStr "Cats purr.")])) in
  field (app p w GET_me) "user" = Some (get_user_info (environ p)) /\
  field (app p w' GET_me) "user" = field (app p w GET_me) "user" /\
  (exists stack : string,
     field (app p w GET_me) "user" =
       Some (PyDict [ ("email", PyStr (USER_EMAIL (settings p)));
                      ("name", PyStr (USER_NAME (settings p)));
                      ("stack", PyStr stack) ]) /\
     (is_Some (environ p !! "USER_STACK") ->
        stack = USER_STACK (settings p) /\
        field (app p w GET_me) "user" = Some (configured_user (settings p)))) /\
  (forall env : gmap string string,
     Fastapi.status_code (handle p env w GET_me) = 200 ->
     field (handle p env w GET_me) "user" = Some (get_user_info env)).
Proof.
  apply (C2_user_fields_from_environment
           (<["USER_EMAIL" := "ada@example.com"]>
              (<["USER_NAME" := "Ada Lovelace"]> (<["USER_STACK" := "Python/FastAPI"]> ∅)))
           ∅
           (mkWorld Sample.t0 (Sample.answers (PyDict [])))
           (mkWorld Sample.t1 (Sample.answers (PyDict [("fact", PyStr "Cats purr.")]))));
    reflexivity.
Defined.

(** ** The text of a timestamp *)

Module DatetimeFacts.

Import Format Datetime.

Local Open Scope N_scope.

(** *** Strings *)

Lemma append_nil (t : string) : ("" ++ t)%string = t.
Proof. reflexivity. Qed.

Lemma append_cons (c : ascii) (s t : string) :
  (String c s ++ t)%string = String c (s ++ t).
Proof. reflexivity. Qed.

Lemma append_assoc (s t u : string) : ((s ++ t) ++ u)%string = (s ++ (t ++ u))%string.
Proof.
  induction s as [| c s IH]; [reflexivity |].
  rewrite !append_cons, IH. reflexivity.
Qed.

Lemma lex_assoc (x y z : comparison) : lex (lex x y) z = lex x (lex y z).
Proof. destruct x; reflexivity. Qed.

Lemma lex_Eq_r (x : comparison) : lex x Eq = x.
Proof. destruct x; reflexivity. Qed.

Lemma compare_cons (c1 c2 : ascii) (s t : string) :
  String.compare (String c1 s) (String c2 t) =
  lex (Ascii.compare c1 c2) (String.compare s t).
Proof. simpl. destruct (Ascii.compare c1 c2); reflexivity. Qed.

Lemma compare_same_head (c : ascii) (s t : string) :
  String.compare (String c s) (String c t) = String.compare s t.
Proof.
  rewrite compare_cons. unfold Ascii.compare. rewrite N.compare_refl. reflexivity.
Qed.

(** *** Digits *)

Lemma N_of_digit_char (d : N) : d < 10 -> N_of_ascii (digit_char d) = 48 + d.
Proof. intros H. unfold digit_char. apply N_ascii_embedding. lia. Qed.

Lemma compare_digit_char (a b : N) :
  a < 10 -> b < 10 -> Ascii.compare (digit_char a) (digit_char b) = (a ?= b).
Proof.
  intros Ha Hb. unfold Ascii.compare. rewrite !N_of_digit_char by assumption.
  destruct (N.compare_spec a b) as [E | E | E].
  - subst. apply N.compare_refl.
  - apply N.compare_lt_iff. lia.
  - apply N.compare_gt_iff. lia.
Qed.

Lemma digit_of_digit_char (d : N) : d < 10 -> Spec.digit_of (digit_char d) = Some d.
Proof.
  intros H. unfold Spec.digit_of. rewrite N_of_digit_char by assumption.
  replace ((48 <=? 48 + d) && (48 + d <=? 57)) with true.
  - f_equal. lia.
  - symmetry. apply andb_true_iff. split; apply N.leb_le; lia.
Qed.

Lemma pow10_pos (w : nat) : 0 < 10 ^ N.of_nat w.
Proof. apply N.neq_0_lt_0, N.pow_nonzero. discriminate. Qed.

Lemma pow10_succ (w : nat) : 10 ^ N.of_nat (S w) = 10 ^ N.of_nat w * 10.
Proof. rewrite Nat2N.inj_succ, N.pow_succ_r'. lia. Qed.

(** The lowest [S w] digits are one digit and the lowest [w] digits. *)
Lemma mod_pow10_succ (n : N) (w : nat) :
  n mod 10 ^ N.of_nat (S w) =
  (n / 10 ^ N.of_nat w) mod 10 * 10 ^ N.of_nat w + n mod 10 ^ N.of_nat w.
Proof. rewrite pow10_succ, N.Div0.mod_mul_r. lia. Qed.

Lemma compare_digits (m d1 r1 d2 r2 : N) :
  r1 < m -> r2 < m ->
  (d1 * m + r1 ?= d2 * m + r2) = lex (d1 ?= d2) (r1 ?= r2).
Proof.
  intros H1 H2.
  destruct (N.compare_spec d1 d2) as [E | E | E]; simpl.
  - subst d2. destruct (N.compare_spec r1 r2) as [F | F | F].
    + subst. apply N.compare_refl.
    + apply N.compare_lt_iff. lia.
    + apply N.compare_gt_iff. lia.
  - apply N.compare_lt_iff. nia.
  - apply N.compare_gt_iff. nia.
Qed.

(** *** Fixed-width fields *)

(** Two fields of the same width compare as the numbers they print. *)
Lemma compare_fixed (w : nat) (a b : N) (s t : string) :
  String.compare (fixed w a ++ s) (fixed w b ++ t) =
  lex (a mod 10 ^ N.of_nat w ?= b mod 10 ^ N.of_nat w) (String.compare s t).
Proof.
  induction w as [| w IH].
  - simpl fixed. rewrite !append_nil. change (10 ^ N.of_nat 0) with 1.
    rewrite !N.mod_1_r. reflexivity.
  - simpl fixed. rewrite !append_cons, compare_cons, IH.
    rewrite compare_digit_char by (apply N.mod_lt; discriminate).
    rewrite <- lex_assoc. f_equal.
    rewrite !mod_pow10_succ. symmetry.
    apply compare_digits; apply N.mod_lt, N.neq_0_lt_0, pow10_pos.
Qed.

(** Reading back [w] digits gives the number they print. *)
Lemma take_digits_fixed (w : nat) (acc n : N) (rest : string) :
  Spec.take_digits w acc (fixed w n ++ rest) =
  Some (acc * 10 ^ N.of_nat w + n mod 10 ^ N.of_nat w, rest).
Proof.
  revert acc. induction w as [| w IH]; intros acc.
  - simpl. rewrite append_nil. change (10 ^ N.of_nat 0) with 1.
    rewrite N.mod_1_r. do 2 f_equal. lia.
  - simpl fixed. rewrite append_cons. simpl Spec.take_digits.
    rewrite digit_of_digit_char by (apply N.mod_lt; discriminate).
    rewrite IH. do 2 f_equal. rewrite mod_pow10_succ, pow10_succ. lia.
Qed.

Lemma ndigits_fuel_le (fuel : nat) (n : N) (w : nat) :
  n < 10 ^ N.of_nat w -> (1 <= w)%nat -> (ndigits_fuel fuel n <= w)%nat.
Proof.
  revert n w. induction fuel as [| fuel IH]; intros n w Hn Hw; simpl; [lia |].
  destruct (N.ltb_spec n 10) as [Hlt | Hge]; [lia |].
  destruct w as [| w]; [lia |].
  apply le_n_S. rewrite pow10_succ in Hn.
  destruct w as [| w].
  - change (10 ^ N.of_nat 0) with 1 in Hn. lia.
  - apply IH; [| lia].
    apply N.Div0.div_lt_upper_bound. lia.
Qed.

Lemma ndigits_fuel_enough (fuel : nat) (n : N) :
  n < 2 ^ N.of_nat fuel -> n < 10 ^ N.of_nat (ndigits_fuel fuel n).
Proof.
  revert n. induction fuel as [| fuel IH]; intros n Hn; simpl ndigits_fuel.
  - change (2 ^ N.of_nat 0) with 1 in Hn. change (10 ^ N.of_nat 1) with 10. lia.
  - destruct (N.ltb_spec n 10) as [Hlt | Hge]; [exact Hlt |].
    rewrite pow10_succ.
    rewrite Nat2N.inj_succ, N.pow_succ_r' in Hn.
    assert (n / 10 < 2 ^ N.of_nat fuel) as Hq
      by (apply N.Div0.div_lt_upper_bound; lia).
    specialize (IH _ Hq).
    pose proof (N.mod_lt n 10 ltac:(discriminate)).
    pose proof (N.Div0.div_mod n 10). lia.
Qed.

(** [str] of a natural number has all its digits: reading them back gives
    the number. *)
Lemma str_int_reads_back (z : Z) :
  (0 <= z)%Z ->
  Spec.take_digits (ndigits (Z.to_N z)) 0 (str_int z) = Some (Z.to_N z, ""%string).
Proof.
  intros Hz. unfold str_int. destruct (Z.ltb_spec z 0) as [Hneg | _]; [lia |].
  unfold format_d. rewrite Nat.max_r by lia.
  pose proof (take_digits_fixed (ndigits (Z.to_N z)) 0 (Z.to_N z) "") as H.
  replace (fixed (ndigits (Z.to_N z)) (Z.to_N z) ++ "")%string
    with (fixed (ndigits (Z.to_N z)) (Z.to_N z)) in H.
  - rewrite H. do 2 f_equal. rewrite N.mod_small; [lia |].
    unfold ndigits. apply ndigits_fuel_enough.
    rewrite N2Nat.id. apply N.size_gt.
  - generalize (fixed (ndigits (Z.to_N z)) (Z.to_N z)). intros s.
    induction s as [| c s IH]; [reflexivity |]. rewrite append_cons, <- IH. reflexivity.
Qed.

(** A number that fits the width is printed with exactly that width. *)
Lemma format_d_fixed (w : nat) (n : N) :
  n < 10 ^ N.of_nat w -> (1 <= w)%nat -> format_d w n = fixed w n.
Proof.
  intros Hn Hw. unfold format_d.
  rewrite Nat.max_l; [reflexivity |]. apply ndigits_fuel_le; assumption.
Qed.

(** *** Valid clock readings *)

Lemma days_in_month_le (y m : N) : days_in_month y m <= 31.
Proof.
  unfold days_in_month.
  destruct (m =? 2); [destruct (is_leap y); lia |].
  destruct ((m =? 4) || (m =? 6) || (m =? 9) || (m =? 11)); lia.
Qed.

Lemma valid_bounds (dt : datetime) :
  valid dt = true ->
  year dt < 10 ^ N.of_nat 4 /\ month dt < 10 ^ N.of_nat 2 /\
  day dt < 10 ^ N.of_nat 2 /\ hour dt < 10 ^ N.of_nat 2 /\
  minute dt < 10 ^ N.of_nat 2 /\ second dt < 10 ^ N.of_nat 2 /\
  microsecond dt < 10 ^ N.of_nat 6.
Proof.
  unfold valid. rewrite !andb_true_iff, !N.leb_le.
  pose proof (days_in_month_le (year dt) (month dt)).
  change (10 ^ N.of_nat 4) with 10000. change (10 ^ N.of_nat 2) with 100.
  change (10 ^ N.of_nat 6) with 1000000. lia.
Qed.

(** The text of a valid reading, field by field. *)
Lemma isoformat_fixed (dt : datetime) :
  valid dt = true ->
  isoformat dt =
  (fixed 4 (year dt) ++ "-" ++ fixed 2 (month dt) ++ "-" ++ fixed 2 (day dt) ++ "T" ++
   fixed 2 (hour dt) ++ ":" ++ fixed 2 (minute dt) ++ ":" ++ fixed 2 (second dt) ++
   (if (microsecond dt =? 0)%N then "+00:00"
    else "." ++ fixed 6 (microsecond dt) ++ "+00:00"))%string.
Proof.
  intros Hv. destruct (valid_bounds dt Hv) as (Hy & Hm & Hd & Hh & Hmi & Hs & Hus).
  unfold isoformat, format_time, utc_offset.
  rewrite !format_d_fixed by (assumption || lia).
  rewrite !append_assoc. do 11 f_equal.
  destruct (microsecond dt =? 0); [reflexivity |].
  rewrite !append_assoc. reflexivity.
Qed.

Lemma compare_fraction (a b : N) :
  a < 10 ^ N.of_nat 6 -> b < 10 ^ N.of_nat 6 ->
  String.compare
    (if (a =? 0)%N then "+00:00" else "." ++ fixed 6 a ++ "+00:00")%string
    (if (b =? 0)%N then "+00:00" else "." ++ fixed 6 b ++ "+00:00")%string
  = (a ?= b).
Proof.
  intros Ha Hb.
  destruct (N.eqb_spec a 0) as [-> | Na]; destruct (N.eqb_spec b 0) as [-> | Nb].
  - reflexivity.
  - transitivity Lt; [reflexivity |]. symmetry. apply N.compare_lt_iff. lia.
  - transitivity Gt; [reflexivity |]. symmetry. apply N.compare_gt_iff. lia.
  - rewrite !append_cons, !append_nil, compare_same_head, compare_fixed.
    rewrite !N.mod_small by assumption. apply lex_Eq_r.
Qed.

(** The text orders valid readings as Python orders the readings. *)
Lemma compare_isoformat (a b : datetime) :
  valid a = true -> valid b = true ->
  String.compare (isoformat a) (isoformat b) = cmp a b.
Proof.
  intros Va Vb.
  rewrite (isoformat_fixed a Va), (isoformat_fixed b Vb).
  destruct (valid_bounds a Va) as (Hy & Hm & Hd & Hh & Hmi & Hs & Hus).
  destruct (valid_bounds b Vb) as (Hy' & Hm' & Hd' & Hh' & Hmi' & Hs' & Hus').
  unfold cmp.
  repeat (rewrite compare_fixed;
          rewrite ?append_cons, ?append_nil, ?compare_same_head).
  rewrite compare_fraction by assumption.
  rewrite !N.mod_small by assumption. reflexivity.
Qed.

Lemma isoformat_monotone (a b : datetime) :
  valid a = true -> valid b = true -> le a b ->
  (isoformat a ≤ isoformat b)%string.
Proof.
  intros Va Vb Hle. unfold String.le, String.leb.
  rewrite (compare_isoformat a b Va Vb).
  unfold le in Hle. destruct (cmp a b); [exact I | exact I | congruence].
Qed.

(** The text of a valid reading parses back to the reading. *)

Lemma obind_Some {A B : Type} (f : A -> option B) (x : A) : (Some x ≫= f) = f x.
Proof. reflexivity. Qed.

Lemma expect_cons (c : ascii) (s : string) : Spec.expect c (String c s) = Some s.
Proof. simpl. rewrite Ascii.eqb_refl. reflexivity. Qed.

Lemma take_fraction_dot (s : string) :
  Spec.take_fraction (String "." s) = Spec.take_digits 6 0 s.
Proof. reflexivity. Qed.

Ltac parse_field H :=
  rewrite take_digits_fixed, (N.mod_small _ _ H), N.mul_0_l, N.add_0_l, obind_Some;
  cbv beta iota.

Ltac parse_sep := rewrite expect_cons, obind_Some.

Lemma parse_isoformat (dt : datetime) :
  valid dt = true -> Spec.parse_iso8601_utc (isoformat dt) = Some dt.
Proof.
  intros Hv. rewrite (isoformat_fixed dt Hv).
  destruct (valid_bounds dt Hv) as (Hy & Hm & Hd & Hh & Hmi & Hs & Hus).
  unfold Spec.parse_iso8601_utc. rewrite !append_cons, !append_nil.
  parse_field Hy. parse_sep. parse_field Hm. parse_sep. parse_field Hd. parse_sep.
  parse_field Hh. parse_sep. parse_field Hmi. parse_sep. parse_field Hs.
  destruct dt as [y m d hh mm ss us].
  cbn [year month day hour minute second microsecond] in *.
  destruct (N.eqb_spec us 0) as [-> | Nus].
  - change (Spec.take_fraction "+00:00") with (Some (0, "+00:00"%string)).
    rewrite obind_Some. cbv beta iota zeta.
    rewrite String.eqb_refl, Hv. reflexivity.
  - rewrite take_fraction_dot.
    parse_field Hus. cbv zeta. rewrite String.eqb_refl, Hv. reflexivity.
Qed.

End DatetimeFacts.

(** ** The claims about [/health] and the timestamps *)

Section Timestamps.

Variable p : process.

Lemma health_answer (w : world) :
  app p w GET_health =
  mkJSONResponse
    (PyDict [ ("status", PyStr "healthy");
              ("timestamp", PyStr (Datetime.isoformat (now w))) ])
    200 [].
Proof.
  unfold app, handle.
  change (Models.HealthResponse (health_check (now w)))
    with (@Return pyval (PyDict [ ("status", PyStr "healthy");
                                  ("timestamp", PyStr (Datetime.isoformat (now w))) ])).
  cbn [bind]. unfold new_JSONResponse.
  change (json_compliant (PyDict [ ("status", PyStr "healthy");
                                   ("timestamp", PyStr (Datetime.isoformat (now w))) ]))
    with true.
  assert (utf8_encodable (PyDict [ ("status", PyStr "healthy");
                                   ("timestamp", PyStr (Datetime.isoformat (now w))) ])
          = true) as ->; [| reflexivity].
  cbn [utf8_encodable forallb fst snd].
  rewrite TextFacts.isoformat_encodable. reflexivity.
Qed.

(** Both routes that send a timestamp send the text of the clock reading. *)
Lemma timestamp_of_200 (w : world) (rq : request) :
  rq <> GET_root ->
  Fastapi.status_code (app p w rq) = 200 ->
  field (app p w rq) "timestamp" = Some (PyStr (Datetime.isoformat (now w))).
Proof.
  intros Hrq H200. destruct rq; [congruence | |].
  - rewrite health_answer. reflexivity.
  - destruct (me_200_content p w H200) as [fact [_ Hc]].
    unfold field. rewrite Hc. reflexivity.
Qed.

End Timestamps.

(** C8: every call to [/health] answers 200 with [status] equal to
    "healthy" and a timestamp that parses as an ISO-8601 UTC date and time
    (to the clock reading of the call); the answer does not depend on the
    upstream fact API, which the route never contacts. *)
Theorem C8_health_always_healthy (p : process) (w : world) :
  Datetime.valid (now w) = true ->
  Fastapi.status_code (app p w GET_health) = 200 /\
  field (app p w GET_health) "status" = Some (PyStr "healthy") /\
  (exists ts : string,
     field (app p w GET_health) "timestamp" = Some (PyStr ts) /\
     parse_iso8601_utc ts = Some (now w)) /\
  (forall tr : transport,
     app p (mkWorld (now w) tr) GET_health = app p w GET_health).
Proof.
  intros Hv. rewrite health_answer.
  split; [reflexivity |]. split; [reflexivity |]. split.
  - exists (Datetime.isoformat (now w)). split; [reflexivity |].
    apply DatetimeFacts.parse_isoformat, Hv.
  - intros tr. rewrite health_answer. reflexivity.
Qed.

Lemma C8_health_witness :
  Fastapi.status_code
    (app Sample.bare (mkWorld Sample.t1 (Sample.fails ConnectError "refused")) GET_health)
    = 200 /\
  field (app Sample.bare (mkWorld Sample.t1 (Sample.fails ConnectError "refused")) GET_health)
    "status" = Some (PyStr "healthy") /\
  (exists ts : string,
     field (app Sample.bare (mkWorld Sample.t1 (Sample.fails ConnectError "refused")) GET_health)
       "timestamp" = Some (PyStr ts) /\
     parse_iso8601_utc ts = Some Sample.t1) /\
  (forall tr : transport,
     app Sample.bare (mkWorld Sample.t1 tr) GET_health =
     app Sample.bare (mkWorld Sample.t1 (Sample.fails ConnectError "refused")) GET_health).
Proof.
  apply (C8_health_always_healthy Sample.bare
           (mkWorld Sample.t1 (Sample.fails ConnectError "refused"))).
  reflexivity.
Defined.

(** C9: for two calls to [/me] or [/health] of one process, the second
    made when the clock reads no less than at the first, the timestamp
    string of the second answer is greater than or equal to that of the
    first, in the order of strings. *)
Theorem C9_timestamps_non_decreasing (p : process) (w1 w2 : world)
    (rq1 rq2 : request) :
  rq1 <> GET_root -> rq2 <> GET_root ->
  Datetime.valid (now w1) = true -> Datetime.valid (now w2) = true ->
  Datetime.le (now w1) (now w2) ->
  Fastapi.status_code (app p w1 rq1) = 200 ->
  Fastapi.status_code (app p w2 rq2) = 200 ->
  exists ts1 ts2 : string,
    field (app p w1 rq1) "timestamp" = Some (PyStr ts1) /\
    field (app p w2 rq2) "timestamp" = Some (PyStr ts2) /\
    (ts1 ≤ ts2)%string.
Proof.
  intros Hrq1 Hrq2 Hv1 Hv2 Hle H1 H2.
  exists (Datetime.isoformat (now w1)), (Datetime.isoformat (now w2)).
  split; [apply timestamp_of_200; assumption |].
  split; [apply timestamp_of_200; assumption |].
  apply DatetimeFacts.isoformat_monotone; assumption.
Qed.

Lemma C9_timestamps_witness :
  exists ts1 ts2 : string,
    field (app Sample.bare (mkWorld Sample.t0 (Sample.answers (PyDict []))) GET_me)
      "timestamp" = Some (PyStr ts1) /\
    field (app Sample.bare (mkWorld Sample.t1 (Sample.fails ConnectError "refused")) GET_health)
      "timestamp" = Some (PyStr ts2) /\
    (ts1 ≤ ts2)%string.
Proof.
  apply (C9_timestamps_non_decreasing Sample.bare
           (mkWorld Sample.t0 (Sample.answers (PyDict [])))
           (mkWorld Sample.t1 (Sample.fails ConnectError "refused"))
           GET_me GET_health);
    try reflexivity; discriminate.
Defined.
(** * Further properties of the code *)

Import Checks ErrorSchema.

(** ** What [/me] answers, by what the upstream did *)

Section StatusTable.

Variable p : process.
Variable w : world.

(** The fact client returns exactly on a 2xx answer with a JSON object. *)
Lemma fetch_returns_iff (tr : transport) (fact : pyval) :
  fetch_cat_fact tr = Return fact <->
  exists (r : Response) (items : list (string * pyval)),
    tr CAT_FACT_API = Return r /\ is_success r = true /\
    body r = Decoded (PyDict items) /\
    fact = dict_get items "fact" (PyStr "Cats are amazing creatures!").
Proof.
  split.
  - intros Hf.
    destruct (tr CAT_FACT_API) as [r | e0] eqn:Hget;
      [| rewrite (fetch_handlers tr e0 Hget) in Hf; discriminate].
    destruct (is_success r) eqn:Hok;
      [| rewrite (fetch_status_error tr r Hget Hok) in Hf; discriminate].
    destruct (json_object r) eqn:Hobj;
      [| destruct (fetch_not_object tr r Hget Hok Hobj) as [msg Hm]; congruence].
    unfold json_object in Hobj.
    destruct (body r) as [[] | ] eqn:Hbody; try discriminate.
    rewrite (fetch_object tr r d Hget Hok Hbody) in Hf. injection Hf as <-.
    exists r, d. auto.
  - intros (r & items & Hget & Hok & Hbody & ->).
    apply (fetch_object tr r items Hget Hok Hbody).
Qed.

(** The status of the answer, read off the outcome of the fact client. *)
Lemma me_status_of_fetch :
  Fastapi.status_code (app p w GET_me) =
  match fetch_cat_fact (client_get w) with
  | Return fact => if renderable (payload (environ p) (now w) fact) then 200 else 500
  | Raise e => exc_code e
  end.
Proof.
  destruct (fetch_cat_fact (client_get w)) as [fact | e] eqn:Hf.
  - destruct (renderable (payload (environ p) (now w) fact)) eqn:Hc.
    + rewrite (me_of_fact p w fact Hf Hc). reflexivity.
    + destruct (me_of_unrenderable_fact p w fact Hf Hc) as [msg ->]. reflexivity.
  - rewrite (me_of_failure p w e Hf). reflexivity.
Qed.

(** The status that the handlers choose for an exception of the request. *)
Lemma fetch_code_of_exception (e : exn) :
  client_get w CAT_FACT_API = Raise e ->
  exists e' : exn,
    fetch_cat_fact (client_get w) = Raise e' /\
    exc_code e' =
      if isinstance e RequestError || isinstance e HTTPStatusError then 503 else 500.
Proof.
  intros Hget. rewrite (fetch_handlers _ e Hget). eexists. split; [reflexivity |].
  destruct (isinstance e TimeoutException) eqn:Ht.
  - unfold isinstance in *. rewrite (timeout_is_request_error _ Ht). reflexivity.
  - destruct (isinstance e HTTPStatusError) eqn:Hs.
    + rewrite orb_true_r. reflexivity.
    + destruct (isinstance e RequestError); reflexivity.
Qed.

End StatusTable.

(** X1: the routes answer with three status codes only.  [/] and
    [/health] always answer 200; [/me] answers 200, 503 or 500 and nothing
    else, whatever the upstream does. *)
Theorem X1_status_codes_of_the_routes (p : process) (w : world) :
  Fastapi.status_code (app p w GET_root) = 200 /\
  Fastapi.status_code (app p w GET_health) = 200 /\
  (Fastapi.status_code (app p w GET_me) = 200 \/
   Fastapi.status_code (app p w GET_me) = 503 \/
   Fastapi.status_code (app p w GET_me) = 500).
Proof.
  split; [reflexivity |]. split; [rewrite health_answer; reflexivity |].
  rewrite me_status_of_fetch.
  destruct (fetch_cat_fact (client_get w)) as [fact | e] eqn:Hf.
  - destruct (renderable _); auto.
  - destruct (fetch_raises_http_exception _ e Hf) as [_ [-> | ->]]; auto.
Qed.

(** X2: [/me] answers 200 exactly when the upstream answered with a 2xx
    status and a JSON object whose [fact] value (the fallback string when
    there is none) can be rendered (it holds no float that is infinite or
    not a number and no string with a surrogate code point), in a process
    whose three user fields can be encoded as UTF-8. *)
Theorem X2_me_succeeds_iff (p : process) (w : world) :
  Fastapi.status_code (app p w GET_me) = 200 <->
  exists (r : Response) (items : list (string * pyval)),
    client_get w CAT_FACT_API = Return r /\ is_success r = true /\
    body r = Decoded (PyDict items) /\
    renderable (dict_get items "fact" (PyStr "Cats are amazing creatures!")) = true /\
    utf8_encodable (get_user_info (environ p)) = true.
Proof.
  rewrite me_status_of_fetch. split.
  - destruct (fetch_cat_fact (client_get w)) as [fact | e] eqn:Hf.
    + destruct (renderable (payload (environ p) (now w) fact)) eqn:Hc; [| discriminate].
      intros _. rewrite payload_renderable in Hc. apply andb_true_iff in Hc.
      apply fetch_returns_iff in Hf. destruct Hf as (r & items & Hget & Hok & Hbody & ->).
      exists r, items. tauto.
    + intros H200.
      destruct (fetch_raises_http_exception _ e Hf) as [_ [Hc | Hc]]; lia.
  - intros (r & items & Hget & Hok & Hbody & Hc & Hu).
    rewrite (fetch_object _ r items Hget Hok Hbody), payload_renderable, Hc, Hu.
    reflexivity.
Qed.

(** X3: [/me] answers 503 exactly when the request raised an httpx
    [RequestError] (timeouts included) or [HTTPStatusError], or the upstream
    answered with a status outside 200..299. *)
Theorem X3_me_unavailable_iff (p : process) (w : world) :
  Fastapi.status_code (app p w GET_me) = 503 <->
  (exists e : exn,
     client_get w CAT_FACT_API = Raise e /\
     isinstance e RequestError || isinstance e HTTPStatusError = true) \/
  (exists r : Response,
     client_get w CAT_FACT_API = Return r /\ is_success r = false).
Proof.
  rewrite me_status_of_fetch.
  destruct (client_get w CAT_FACT_API) as [r | e] eqn:Hget.
  - destruct (is_success r) eqn:Hok.
    + split.
      * destruct (json_object r) eqn:Hobj.
        -- unfold json_object in Hobj.
           destruct (body r) as [[] | ] eqn:Hbody; try discriminate.
           rewrite (fetch_object _ r d Hget Hok Hbody).
           destruct (renderable _); discriminate.
        -- destruct (fetch_not_object _ r Hget Hok Hobj) as [msg ->]. discriminate.
      * intros [(e & He & _) | (r' & Hr & Hno)]; [discriminate |].
        injection Hr as <-. congruence.
    + rewrite (fetch_status_error _ r Hget Hok). split; [| reflexivity].
      intros _. right. exists r. auto.
  - destruct (fetch_code_of_exception w e Hget) as (e' & -> & Hcode).
    rewrite Hcode. split.
    + destruct (isinstance e RequestError || isinstance e HTTPStatusError) eqn:Hk;
        [| discriminate].
      intros _. left. exists e. auto.
    + intros [(e0 & He & Hk) | (r & Hr & _)]; [| discriminate].
      injection He as <-. rewrite Hk. reflexivity.
Qed.

(** X4: every answer of [/me] other than 200 is an object with the single
    key [detail] holding a string, as the schema [ErrorResponse] has it. *)
Theorem X4_errors_fit_the_error_schema (p : process) (w : world) :
  Fastapi.status_code (app p w GET_me) = 200 \/
  exists detail : string,
    content (app p w GET_me) = PyDict [("detail", PyStr detail)] /\
    ErrorResponse (content (app p w GET_me)) = Return (content (app p w GET_me)).
Proof.
  destruct (fetch_cat_fact (client_get w)) as [fact | e] eqn:Hf.
  - destruct (renderable (payload (environ p) (now w) fact)) eqn:Hc.
    + left. rewrite (me_of_fact p w fact Hf Hc). reflexivity.
    + right. destruct (me_of_unrenderable_fact p w fact Hf Hc) as [msg ->].
      eexists. split; reflexivity.
  - right. rewrite (me_of_failure p w e Hf). eexists. split; reflexivity.
Qed.

(** X5: of the upstream object only the value under [fact] reaches the
    answer: two 2xx objects that agree on [fact] give the same answer. *)
Theorem X5_only_the_fact_is_forwarded (p : process) (now : Datetime.datetime)
    (tr1 tr2 : transport) (r1 r2 : Response) (items1 items2 : list (string * pyval)) :
  tr1 CAT_FACT_API = Return r1 -> is_success r1 = true ->
  body r1 = Decoded (PyDict items1) ->
  tr2 CAT_FACT_API = Return r2 -> is_success r2 = true ->
  body r2 = Decoded (PyDict items2) ->
  lookup_item items1 "fact" = lookup_item items2 "fact" ->
  app p (mkWorld now tr1) GET_me = app p (mkWorld now tr2) GET_me.
Proof.
  intros Hg1 Hok1 Hb1 Hg2 Hok2 Hb2 Hfact.
  pose proof (fetch_object tr1 r1 items1 Hg1 Hok1 Hb1) as Hf1.
  pose proof (fetch_object tr2 r2 items2 Hg2 Hok2 Hb2) as Hf2.
  unfold dict_get in Hf1, Hf2. rewrite Hfact in Hf1.
  unfold app, handle, get_profile, build_profile_response. simpl client_get.
  rewrite Hf1, Hf2. reflexivity.
Qed.

Lemma X5_only_the_fact_witness :
  app Sample.bare
    (mkWorld Sample.t0 (Sample.answers (PyDict [("fact", PyStr "Cats purr."); ("length", PyInt 10)])))
    GET_me =
  app Sample.bare
    (mkWorld Sample.t0 (fun _ => Return (mkResponse 201 (Decoded (PyDict [("fact", PyStr "Cats purr.")])))))
    GET_me.
Proof.
  apply (X5_only_the_fact_is_forwarded Sample.bare Sample.t0 _ _
           (mkResponse 200 (Decoded (PyDict [("fact", PyStr "Cats purr."); ("length", PyInt 10)])))
           (mkResponse 201 (Decoded (PyDict [("fact", PyStr "Cats purr.")])))
           [("fact", PyStr "Cats purr."); ("length", PyInt 10)]
           [("fact", PyStr "Cats purr.")]); reflexivity.
Defined.

(** ** The timestamp text *)

Module TimestampFacts.

Import Format Datetime DatetimeFacts.

Lemma length_append (s t : string) :
  String.length (s ++ t) = (String.length s + String.length t)%nat.
Proof.
  induction s as [| c s IH]; [reflexivity |].
  rewrite append_cons. simpl. rewrite IH. reflexivity.
Qed.

Lemma length_fixed (w : nat) (n : N) : String.length (fixed w n) = w.
Proof. induction w as [| w IH]; simpl; [reflexivity | rewrite IH; reflexivity]. Qed.

Lemma isoformat_length (dt : datetime) :
  valid dt = true ->
  String.length (isoformat dt) = if (microsecond dt =? 0)%N then 25%nat else 32%nat.
Proof.
  intros Hv. rewrite (isoformat_fixed dt Hv).
  destruct (microsecond dt =? 0)%N;
    rewrite !length_append, !length_fixed; reflexivity.
Qed.

Lemma isoformat_suffix (dt : datetime) :
  exists pre : string, isoformat dt = pre ++ "+00:00".
Proof.
  exists (format_d 4 (year dt) ++ "-" ++ format_d 2 (month dt) ++ "-" ++
          format_d 2 (day dt) ++ "T" ++
          format_time (hour dt) (minute dt) (second dt) (microsecond dt)).
  unfold isoformat, utc_offset. rewrite !append_assoc. reflexivity.
Qed.

Lemma isoformat_inj (a b : datetime) :
  valid a = true -> valid b = true -> isoformat a = isoformat b -> a = b.
Proof.
  intros Va Vb E.
  pose proof (parse_isoformat a Va) as Pa. pose proof (parse_isoformat b Vb) as Pb.
  rewrite E in Pa. congruence.
Qed.

End TimestampFacts.

(** X6: the text of [get_current_timestamp] orders clock readings as the
    readings are ordered (a later reading gives a greater string, an
    earlier one a smaller string), and two readings with the same text are
    the same reading. *)
Theorem X6_timestamp_text_orders_as_time (a b : Datetime.datetime) :
  Datetime.valid a = true -> Datetime.valid b = true ->
  String.compare (get_current_timestamp a) (get_current_timestamp b) = Datetime.cmp a b /\
  (get_current_timestamp a = get_current_timestamp b -> a = b).
Proof.
  intros Va Vb. unfold get_current_timestamp. split.
  - apply DatetimeFacts.compare_isoformat; assumption.
  - apply TimestampFacts.isoformat_inj; assumption.
Qed.

Lemma X6_timestamp_text_witness :
  String.compare (get_current_timestamp Sample.t1) (get_current_timestamp Sample.t0) =
    Datetime.cmp Sample.t1 Sample.t0 /\
  (get_current_timestamp Sample.t1 = get_current_timestamp Sample.t0 ->
   Sample.t1 = Sample.t0).
Proof.
  apply (X6_timestamp_text_orders_as_time Sample.t1 Sample.t0); reflexivity.
Defined.

(** X7: the timestamp has two shapes.  With a microsecond part of zero
    the fraction is left out and the text has 25 characters, otherwise it
    has 32; both end with the offset [+00:00]. *)
Theorem X7_timestamp_has_two_shapes (now : Datetime.datetime) :
  Datetime.valid now = true ->
  String.length (get_current_timestamp now) =
    (if (Datetime.microsecond now =? 0)%N then 25%nat else 32%nat) /\
  exists pre : string, get_current_timestamp now = pre ++ "+00:00".
Proof.
  intros Hv. unfold get_current_timestamp. split.
  - apply TimestampFacts.isoformat_length, Hv.
  - apply TimestampFacts.isoformat_suffix.
Qed.

Lemma X7_timestamp_shapes_witness :
  String.length (get_current_timestamp Sample.t1) =
    (if (Datetime.microsecond Sample.t1 =? 0)%N then 25%nat else 32%nat) /\
  exists pre : string, get_current_timestamp Sample.t1 = pre ++ "+00:00".
Proof.
  apply (X7_timestamp_has_two_shapes Sample.t1). reflexivity.
Defined.

(** X8: the timestamp of every 200 answer of [/me] parses back, as an
    ISO-8601 UTC date and time, to the clock reading of the request. *)
Theorem X8_me_timestamp_parses_back (p : process) (w : world) :
  Datetime.valid (now w) = true ->
  Fastapi.status_code (app p w GET_me) = 200 ->
  exists ts : string,
    field (app p w GET_me) "timestamp" = Some (PyStr ts) /\
    parse_iso8601_utc ts = Some (now w).
Proof.
  intros Hv H200. exists (Datetime.isoformat (now w)). split.
  - apply timestamp_of_200; [discriminate | exact H200].
  - apply DatetimeFacts.parse_isoformat, Hv.
Qed.

Lemma X8_me_timestamp_witness :
  exists ts : string,
    field (app Sample.bare (mkWorld Sample.t0 (Sample.answers (PyDict []))) GET_me)
      "timestamp" = Some (PyStr ts) /\
    parse_iso8601_utc ts = Some Sample.t0.
Proof.
  apply (X8_me_timestamp_parses_back Sample.bare
           (mkWorld Sample.t0 (Sample.answers (PyDict [])))); reflexivity.
Defined.

(** ** The user fields, the environment and the start-up check *)

Section Environment.

(** A variable of the process environment wins over the [.env] file, and
    the default is for a variable that neither sets. *)
Lemma getenv_startup (os_environ dotenv : gmap string string) (key dflt : string) :
  getenv (environ (startup os_environ dotenv)) key dflt =
  match os_environ !! key with
  | Some v => v
  | None => match dotenv !! key with Some v => v | None => dflt end
  end.
Proof.
  unfold startup, load_dotenv, getenv. simpl environ.
  rewrite lookup_union.
  destruct (os_environ !! key), (dotenv !! key); reflexivity.
Qed.

Lemma user_is_configured_iff (env : gmap string string) :
  get_user_info env = configured_user (load_settings env) <->
  is_Some (env !! "USER_STACK").
Proof.
  unfold get_user_info, configured_user, load_settings, getenv. simpl.
  split.
  - intros E. destruct (env !! "USER_STACK") as [v |]; [eauto |].
    simpl in E. discriminate.
  - intros [v ->]. reflexivity.
Qed.

Lemma validate_silent_iff (s : Settings) :
  validate_settings s = [] <->
  USER_EMAIL s <> "your.email@example.com" /\
  USER_NAME s <> "Your Full Name" /\
  USER_STACK s <> "JavaScript/Nodejs".
Proof.
  unfold validate_settings, warnings.
  destruct (String.eqb_spec (USER_EMAIL s) "your.email@example.com") as [E1 | E1];
  destruct (String.eqb_spec (USER_NAME s) "Your Full Name") as [E2 | E2];
  destruct (String.eqb_spec (USER_STACK s) "JavaScript/Nodejs") as [E3 | E3];
    (split; [intros H; try discriminate H; auto | intros (H1 & H2 & H3); try reflexivity; congruence]).
Qed.

Lemma getenv_not_default (env : gmap string string) (key dflt : string) :
  getenv env key dflt <> dflt ->
  exists v : string, env !! key = Some v /\ v <> dflt.
Proof.
  unfold getenv. destruct (env !! key) as [v |]; simpl; [eauto | congruence].
Qed.

End Environment.

(** X9: each user field that [/me] sends is the variable of the process
    environment when it is set there (to any value, the empty string
    included), else the assignment of the [.env] file when there is one,
    else the default of [get_user_info]. *)
Theorem X9_user_fields_precedence (os_environ dotenv : gmap string string) :
  let pick := fun key dflt : string =>
    match os_environ !! key with
    | Some v => v
    | None => match dotenv !! key with Some v => v | None => dflt end
    end in
  get_user_info (environ (startup os_environ dotenv)) =
  PyDict
    [ ("email", PyStr (pick "USER_EMAIL" "your.email@example.com"));
      ("name", PyStr (pick "USER_NAME" "Your Full Name"));
      ("stack", PyStr (pick "USER_STACK" "Python/FastAPI")) ].
Proof.
  intros pick. unfold get_user_info. rewrite !getenv_startup. reflexivity.
Qed.

(** X10: the user object of a 200 answer of [/me] is the configured user
    info exactly when [USER_STACK] is set (in the process environment or by
    the [.env] file); with it unset the two differ. *)
Theorem X10_user_is_configured_iff_stack_set (os_environ dotenv : gmap string string)
    (w : world) :
  let p := startup os_environ dotenv in
  Fastapi.status_code (app p w GET_me) = 200 ->
  (field (app p w GET_me) "user" = Some (configured_user (settings p)) <->
   is_Some (environ p !! "USER_STACK")).
Proof.
  intros p H200.
  pose proof (me_user_from_environment p (environ p) w H200) as Hu.
  change (handle p (environ p) w GET_me) with (app p w GET_me) in Hu.
  rewrite Hu, <- (user_is_configured_iff (environ p)).
  split; [intros E; apply (inj Some) in E; exact E | intros E; f_equal; exact E].
Qed.

Lemma X10_user_is_configured_witness :
  field (app Sample.configured (mkWorld Sample.t0 (Sample.answers (PyDict []))) GET_me) "user" =
    Some (configured_user (settings Sample.configured)) <->
  is_Some (environ Sample.configured !! "USER_STACK").
Proof.
  apply (X10_user_is_configured_iff_stack_set
           (<["USER_EMAIL" := "ada@example.com"]>
              (<["USER_NAME" := "Ada Lovelace"]> (<["USER_STACK" := "Python/FastAPI"]> ∅)))
           ∅ (mkWorld Sample.t0 (Sample.answers (PyDict [])))).
  reflexivity.
Defined.

(** X11: [validate_settings] prints nothing exactly when each of
    [USER_EMAIL], [USER_NAME] and [USER_STACK] is set to a value other than
    the default of [Settings]; a variable that is unset, or set to the
    default text itself, brings the warnings. *)
Theorem X11_validation_silent_iff (env : gmap string string) :
  validate_settings (load_settings env) = [] <->
  exists e n s : string,
    env !! "USER_EMAIL" = Some e /\ env !! "USER_NAME" = Some n /\
    env !! "USER_STACK" = Some s /\
    e <> "your.email@example.com" /\ n <> "Your Full Name" /\ s <> "JavaScript/Nodejs".
Proof.
  rewrite validate_silent_iff. unfold load_settings. simpl. split.
  - intros (H1 & H2 & H3).
    destruct (getenv_not_default _ _ _ H1) as (e & He & Ne).
    destruct (getenv_not_default _ _ _ H2) as (n & Hn & Nn).
    destruct (getenv_not_default _ _ _ H3) as (s & Hs & Ns).
    exists e, n, s. auto 10.
  - intros (e & n & s & He & Hn & Hs & Ne & Nn & Ns).
    unfold getenv. rewrite He, Hn, Hs. auto.
Qed.

(** X12: when the start-up check prints nothing, every 200 answer of
    [/me] carries exactly the configured user info. *)
Theorem X12_silent_validation_means_configured_user (os_environ dotenv : gmap string string)
    (w : world) :
  let p := startup os_environ dotenv in
  validate_settings (settings p) = [] ->
  Fastapi.status_code (app p w GET_me) = 200 ->
  field (app p w GET_me) "user" = Some (configured_user (settings p)).
Proof.
  intros p Hsilent H200.
  pose proof (me_user_from_environment p (environ p) w H200) as Hu.
  change (handle p (environ p) w GET_me) with (app p w GET_me) in Hu.
  rewrite Hu. f_equal. apply user_is_configured_iff.
  apply validate_silent_iff in Hsilent. destruct Hsilent as (_ & _ & H3).
  destruct (getenv_not_default _ _ _ H3) as (s & Hs & _). eauto.
Qed.

Lemma X12_silent_validation_witness :
  field (app Sample.configured (mkWorld Sample.t0 (Sample.answers (PyDict []))) GET_me) "user" =
    Some (configured_user (settings Sample.configured)).
Proof.
  apply (X12_silent_validation_means_configured_user
           (<["USER_EMAIL" := "ada@example.com"]>
              (<["USER_NAME" := "Ada Lovelace"]> (<["USER_STACK" := "Python/FastAPI"]> ∅)))
           ∅ (mkWorld Sample.t0 (Sample.answers (PyDict [])))); reflexivity.
Defined.

(** ** The [DEBUG] setting *)

Section DebugSetting.

Ltac lower_cases c :=
  destruct c as [[] [] [] [] [] [] [] []]; vm_compute;
  (split;
   [ intros H; first [discriminate H | auto]
   | intros [H | H]; first [discriminate H | reflexivity] ]).

Lemma lower_char_t (c : ascii) : lower_char c = "t"%char <-> c = "t"%char \/ c = "T"%char.
Proof. lower_cases c. Qed.

Lemma lower_char_r (c : ascii) : lower_char c = "r"%char <-> c = "r"%char \/ c = "R"%char.
Proof. lower_cases c. Qed.

Lemma lower_char_u (c : ascii) : lower_char c = "u"%char <-> c = "u"%char \/ c = "U"%char.
Proof. lower_cases c. Qed.

Lemma lower_char_e (c : ascii) : lower_char c = "e"%char <-> c = "e"%char \/ c = "E"%char.
Proof. lower_cases c. Qed.

Lemma lower_is_true (v : string) :
  lower v = "true" <->
  exists a b c d : ascii,
    v = String a (String b (String c (String d EmptyString))) /\
    (a = "t" \/ a = "T")%char /\ (b = "r" \/ b = "R")%char /\
    (c = "u" \/ c = "U")%char /\ (d = "e" \/ d = "E")%char.
Proof.
  split.
  - intros H.
    destruct v as [| a [| b [| c [| d [| x v']]]]]; simpl in H; try discriminate H.
    injection H as Ha Hb Hc Hd. exists a, b, c, d.
    rewrite <- lower_char_t, <- lower_char_r, <- lower_char_u, <- lower_char_e. auto.
  - intros (a & b & c & d & -> & Ha & Hb & Hc & Hd). simpl.
    apply lower_char_t in Ha. apply lower_char_r in Hb.
    apply lower_char_u in Hc. apply lower_char_e in Hd.
    rewrite Ha, Hb, Hc, Hd. reflexivity.
Qed.

End DebugSetting.

(** X13: [DEBUG] is on when the variable is unset, and otherwise exactly
    when its value is the word "true" in any mix of upper and lower case;
    every other value ("1", "yes", "on", " true") turns it off. *)
Theorem X13_debug_on_iff (env : gmap string string) :
  DEBUG env = true <->
  env !! "DEBUG" = None \/
  exists a b c d : ascii,
    env !! "DEBUG" = Some (String a (String b (String c (String d EmptyString)))) /\
    (a = "t" \/ a = "T")%char /\ (b = "r" \/ b = "R")%char /\
    (c = "u" \/ c = "U")%char /\ (d = "e" \/ d = "E")%char.
Proof.
  unfold DEBUG, getenv. rewrite String.eqb_eq.
  destruct (env !! "DEBUG") as [v |]; simpl.
  - rewrite lower_is_true. split.
    + intros (a & b & c & d & -> & H). right. exists a, b, c, d. auto.
    + intros [H | (a & b & c & d & [= ->] & H)]; [discriminate |].
      exists a, b, c, d. auto.
  - split; [auto | reflexivity].
Qed.

(** ** The status code in the error detail *)

Module DecimalFacts.

Import Format DatetimeFacts TimestampFacts.

Lemma append_inj_l (s t u : string) : (s ++ t)%string = (s ++ u)%string -> t = u.
Proof.
  induction s as [| c s IH]; [exact (fun H => H) |].
  rewrite !append_cons. intros [= H]. exact (IH H).
Qed.

Lemma append_nil_r (s : string) : (s ++ "")%string = s.
Proof.
  induction s as [| c s IH]; [reflexivity |]. rewrite append_cons, IH. reflexivity.
Qed.

Lemma ndigits_bound (n : N) : (n < 10 ^ N.of_nat (ndigits n))%N.
Proof.
  unfold ndigits. apply ndigits_fuel_enough. rewrite N2Nat.id. apply N.size_gt.
Qed.

Lemma ndigits_pos (n : N) : exists k : nat, ndigits n = S k.
Proof.
  unfold ndigits. destruct (N.to_nat (N.size n)) as [| fuel]; simpl; [eauto |].
  destruct (n <? 10)%N; eauto.
Qed.

Lemma format0_inj (n m : N) : format_d 0 n = format_d 0 m -> n = m.
Proof.
  unfold format_d. rewrite !Nat.max_r by lia. intros E.
  assert (ndigits n = ndigits m) as Ek.
  { apply (f_equal String.length) in E. rewrite !length_fixed in E. exact E. }
  pose proof (take_digits_fixed (ndigits n) 0 n "") as Hn.
  pose proof (take_digits_fixed (ndigits m) 0 m "") as Hm.
  rewrite append_nil_r in Hn, Hm. rewrite E, Ek, Hm in Hn.
  injection Hn as Hn.
  rewrite !N.mod_small in Hn; [lia | | apply ndigits_bound].
  rewrite <- Ek. apply ndigits_bound.
Qed.

Lemma format0_head (n : N) :
  exists (d : N) (rest : string),
    (d < 10)%N /\ format_d 0 n = String (digit_char d) rest.
Proof.
  unfold format_d. rewrite Nat.max_r by lia.
  destruct (ndigits_pos n) as [k ->]. simpl.
  eexists _, _. split; [| reflexivity]. apply N.mod_lt. discriminate.
Qed.

Lemma digit_char_not_minus (d : N) : (d < 10)%N -> digit_char d <> "-"%char.
Proof.
  intros Hd E. apply (f_equal N_of_ascii) in E.
  rewrite (N_of_digit_char d Hd) in E. vm_compute N_of_ascii in E. lia.
Qed.

(** [str] of an integer determines the integer. *)
Lemma str_int_inj (a b : Z) : str_int a = str_int b -> a = b.
Proof.
  unfold str_int.
  destruct (Z.ltb_spec a 0) as [Ha | Ha]; destruct (Z.ltb_spec b 0) as [Hb | Hb].
  - intros E. apply append_inj_l, format0_inj in E.
    apply (f_equal Z.of_N) in E. rewrite !N2Z.inj_abs_N in E. lia.
  - destruct (format0_head (Z.to_N b)) as (d & rest & Hd & ->).
    rewrite append_cons. intros [= E _]. symmetry in E.
    destruct (digit_char_not_minus d Hd E).
  - destruct (format0_head (Z.to_N a)) as (d & rest & Hd & ->).
    rewrite append_cons. intros [= E _].
    destruct (digit_char_not_minus d Hd E).
  - intros E. apply format0_inj in E. lia.
Qed.

End DecimalFacts.

(** X14: the detail of the 503 answer identifies the upstream status:
    two upstream answers with different statuses outside 200..299 give
    different details. *)
Theorem X14_detail_identifies_upstream_status (p : process) (w1 w2 : world)
    (r1 r2 : Response) :
  client_get w1 CAT_FACT_API = Return r1 -> is_success r1 = false ->
  client_get w2 CAT_FACT_API = Return r2 -> is_success r2 = false ->
  field (app p w1 GET_me) "detail" = field (app p w2 GET_me) "detail" ->
  Httpx.status_code r1 = Httpx.status_code r2.
Proof.
  intros Hg1 Hok1 Hg2 Hok2.
  rewrite (me_of_failure p w1 _ (fetch_status_error _ r1 Hg1 Hok1)).
  rewrite (me_of_failure p w2 _ (fetch_status_error _ r2 Hg2 Hok2)).
  unfold field. simpl. intros [= E].
  apply DecimalFacts.append_inj_l, DecimalFacts.str_int_inj in E. exact E.
Qed.

Lemma X14_detail_identifies_witness :
  Httpx.status_code (mkResponse 404 (Decoded (PyDict []))) =
    Httpx.status_code (mkResponse 404 (Decoded (PyDict []))).
Proof.
  apply (X14_detail_identifies_upstream_status Sample.bare
           (mkWorld Sample.t0 (Sample.status 404))
           (mkWorld Sample.t1 (Sample.status 404))
           (mkResponse 404 (Decoded (PyDict [])))
           (mkResponse 404 (Decoded (PyDict [])))); reflexivity.
Defined.

(** ** What [get_profile] raises *)

(** X15: [get_profile] raises nothing but [HTTPException].  What it raises
    is either the exception of the fact client, passed on as it is, or its
    own "Internal server error: ..." with status 500, and the latter only
    when the fact client returned and the answer could not be rendered:
    the fact holds a float that is infinite or not a number, or the fact or
    a user field holds a string that cannot be encoded as UTF-8. *)
Theorem X15_get_profile_raises_http_exceptions_only (env : gmap string string)
    (now : Datetime.datetime) (tr : transport) (e : exn) :
  get_profile env now tr = Raise e ->
  exc_type e = HTTPException /\
  (fetch_cat_fact tr = Raise e \/
   exists (fact : pyval) (msg : string),
     fetch_cat_fact tr = Return fact /\
     renderable fact && utf8_encodable (get_user_info env) = false /\
     e = new_HTTPException 500 ("Internal server error: " ++ msg)).
Proof.
  intros Hg.
  destruct (fetch_cat_fact tr) as [fact | e0] eqn:Hf.
  - destruct (renderable (payload env now fact)) eqn:Hc.
    + rewrite (get_profile_return env now tr fact Hf Hc) in Hg. discriminate.
    + destruct (get_profile_unrenderable env now tr fact Hf Hc) as [msg Hm].
      rewrite Hm in Hg. injection Hg as <-. split; [reflexivity |].
      right. exists fact, msg. rewrite payload_renderable in Hc. auto.
  - rewrite (get_profile_raise env now tr e0 Hf) in Hg. injection Hg as <-.
    destruct (fetch_raises_http_exception tr e0 Hf) as [Hty _]. auto.
Qed.

Lemma X15_get_profile_raises_witness :
  let e := new_HTTPException 503
             "Cat Facts API is taking too long to respond. Please try again." in
  exc_type e = HTTPException /\
  (fetch_cat_fact (Sample.fails ConnectTimeout "timed out") = Raise e \/
   exists (fact : pyval) (msg : string),
     fetch_cat_fact (Sample.fails ConnectTimeout "timed out") = Return fact /\
     renderable fact && utf8_encodable (get_user_info ∅) = false /\
     e = new_HTTPException 500 ("Internal server error: " ++ msg)).
Proof.
  apply (X15_get_profile_raises_http_exceptions_only ∅ Sample.t0
           (Sample.fails ConnectTimeout "timed out")).
  reflexivity.
Defined.

(** X16: an exception of the request that is neither an httpx
    [RequestError] nor an [HTTPStatusError] reaches the client of [/me] in
    words: the 500 answer holds "Unexpected error while fetching cat
    fact: " followed by the text of the exception. *)
Theorem X16_unexpected_error_text_is_sent (p : process) (w : world) (e : exn) :
  client_get w CAT_FACT_API = Raise e ->
  isinstance e RequestError = false ->
  isinstance e HTTPStatusError = false ->
  app p w GET_me =
  mkJSONResponse
    (PyDict [("detail", PyStr ("Unexpected error while fetching cat fact: " ++ exc_str e))])
    500 [].
Proof.
  intros Hget Hr Hs.
  pose proof (fetch_handlers _ e Hget) as Hf. rewrite Hr, Hs in Hf.
  assert (isinstance e TimeoutException = false) as Ht.
  { destruct (isinstance e TimeoutException) eqn:E; [| reflexivity].
    apply timeout_is_request_error in E. unfold isinstance in Hr. congruence. }
  rewrite Ht in Hf. rewrite (me_of_failure p w _ Hf). reflexivity.
Qed.

Lemma X16_unexpected_error_witness :
  app Sample.bare (mkWorld Sample.t0 (Sample.fails RuntimeError "client has been closed")) GET_me =
  mkJSONResponse
    (PyDict [("detail", PyStr "Unexpected error while fetching cat fact: client has been closed")])
    500 [].
Proof.
  apply (X16_unexpected_error_text_is_sent Sample.bare
           (mkWorld Sample.t0 (Sample.fails RuntimeError "client has been closed"))
           (new_exn RuntimeError "client has been closed")); reflexivity.
Defined.
